(** * BachatBot (PlakshaChatbot/app.py): the request path of the chat service

    A shallow embedding of the orchestration code of [app.py]: the keyword
    domain filter [is_finance_tax_related], the bounded retry loop
    [call_llm_with_retry], the answer composer [get_answer] and the Flask
    handler [chat].

    Text.  A Python [str] is modelled by [string], read as the UTF-8 bytes of
    the text.  Every needle the program searches for is ASCII, so a byte-wise
    substring test agrees with Python's code-point test.  [str.strip] removes
    every character Python counts as white space, the ASCII ones and the
    others (U+0085, U+00A0, U+1680, U+2000 to U+200A, U+2028, U+2029, U+202F,
    U+205F, U+3000), each by its UTF-8 bytes.  [str.lower] folds the letters
    [A]-[Z] and keeps every other byte.  Outside ASCII only two characters
    lower-case into ASCII letters, U+212A into [k] and U+0130 into [i]
    followed by U+0307; no needle of the program has a [k] or ends in [i],
    so no occurrence of a needle can come from them.

    Effects.  The external collaborators (the FAISS retriever, the
    conversational retrieval chain, the chat model, [time.sleep], [print]) are
    oracles of an environment [Env]; every call [app.py] makes to one of them
    is recorded in the trace of the world, and a Python exception is the
    [Raise] outcome of a state-and-exception monad.  What a collaborator does
    inside a call (the chain retrieves from the same index and calls the same
    model during its run) belongs to that call and to its oracle. *)

From Stdlib Require Import ZArith Lia Bool Ascii String List.
From stdpp Require Import gmap strings list.

Local Open Scope string_scope.
Local Open Scope list_scope.
Local Open Scope Z_scope.

(** ** Python strings *)

Module PyStr.

(** [c.lower()] on one ASCII character. *)
Definition lower_char (c : ascii) : ascii :=
  let n := Ascii.N_of_ascii c in
  if ((65 <=? n)%N && (n <=? 90)%N)%bool
  then Ascii.ascii_of_N (n + 32)%N
  else c.

(** [s.lower()]. *)
Fixpoint lower (s : string) : string :=
  match s with
  | EmptyString => EmptyString
  | String c s' => String (lower_char c) (lower s')
  end.

(** The value of a byte. *)
Definition byte (c : ascii) : N := Ascii.N_of_ascii c.

(** White space of one byte: TAB, LF, VT, FF, CR, the four separators FS,
    GS, RS, US, and the space. *)
Definition space1 (a : ascii) : bool :=
  (((9 <=? byte a)%N && (byte a <=? 13)%N)
   || ((28 <=? byte a)%N && (byte a <=? 32)%N))%bool.

(** White space of two bytes: U+0085 (C2 85) and U+00A0 (C2 A0). *)
Definition space2 (a b : ascii) : bool :=
  ((byte a =? 194)%N && ((byte b =? 133)%N || (byte b =? 160)%N))%bool.

(** White space of three bytes: U+1680 (E1 9A 80), U+2000 to U+200A
    (E2 80 80 to E2 80 8A), U+2028, U+2029, U+202F (E2 80 A8, A9, AF),
    U+205F (E2 81 9F) and U+3000 (E3 80 80). *)
Definition space3 (a b c : ascii) : bool :=
  (((byte a =? 225)%N && (byte b =? 154)%N && (byte c =? 128)%N)
   || ((byte a =? 226)%N && (byte b =? 128)%N
       && (((128 <=? byte c)%N && (byte c <=? 138)%N)
           || (byte c =? 168)%N || (byte c =? 169)%N || (byte c =? 175)%N))
   || ((byte a =? 226)%N && (byte b =? 129)%N && (byte c =? 159)%N)
   || ((byte a =? 227)%N && (byte b =? 128)%N && (byte c =? 128)%N))%bool.

(** [s.isspace()] for a text of one character: [s] is the UTF-8 encoding of
    a character that [str.isspace] and [str.strip] count as white space. *)
Definition is_space (s : string) : bool :=
  match s with
  | String a EmptyString => space1 a
  | String a (String b EmptyString) => space2 a b
  | String a (String b (String c EmptyString)) => space3 a b c
  | _ => false
  end.

(** The text after its first character, when that is white space. *)
Definition after_space (s : string) : option string :=
  match s with
  | EmptyString => None
  | String a s1 =>
      if space1 a then Some s1
      else
        match s1 with
        | EmptyString => None
        | String b s2 =>
            if space2 a b then Some s2
            else
              match s2 with
              | EmptyString => None
              | String c s3 => if space3 a b c then Some s3 else None
              end
        end
  end.

(** [s.lstrip()]: white space is taken off the front, character by
    character. *)
Fixpoint lstrip (s : string) : string :=
  match s with
  | EmptyString => EmptyString
  | String a s1 =>
      if space1 a then lstrip s1
      else
        match s1 with
        | EmptyString => s
        | String b s2 =>
            if space2 a b then lstrip s2
            else
              match s2 with
              | EmptyString => s
              | String c s3 => if space3 a b c then lstrip s3 else s
              end
        end
  end.

(** [s.rstrip()]: the tail is stripped first; what is left of the text ends
    in white space only if it is a single white-space character.  In the
    UTF-8 bytes of a text no white-space character begins inside another
    character, so reading the bytes from the right finds the same characters
    as Python does. *)
Fixpoint rstrip (s : string) : string :=
  match s with
  | EmptyString => EmptyString
  | String c s' =>
      let r := rstrip s' in
      if is_space (String c r) then EmptyString else String c r
  end.

(** [s.strip()]. *)
Definition strip (s : string) : string := rstrip (lstrip s).

(** [s.startswith(p)]. *)
Fixpoint startswith (p s : string) : bool :=
  match p, s with
  | EmptyString, _ => true
  | String _ _, EmptyString => false
  | String a p', String b s' =>
      if Ascii.eqb a b then startswith p' s' else false
  end.

(** [needle in hay]. *)
Fixpoint contains (needle hay : string) : bool :=
  match hay with
  | EmptyString => startswith needle EmptyString
  | String _ hay' => startswith needle hay || contains needle hay'
  end.

(** Truth value of a string: [bool(s)]. *)
Definition truthy (s : string) : bool :=
  match s with
  | EmptyString => false
  | String _ _ => true
  end.

(** The mathematical notion [contains] decides. *)
Definition Substring (needle hay : string) : Prop :=
  exists pre post : string, hay = pre +:+ needle +:+ post.

(** A byte that a white-space character can be made of. *)
Definition margin_byte (c : ascii) : bool :=
  (space1 c || (128 <=? byte c)%N)%bool.

(** A needle that begins and ends with an ASCII character that is not white
    space: such an occurrence cannot reach into the stripped margins. *)
Definition begins_solid (needle : string) : bool :=
  match needle with
  | EmptyString => false
  | String a _ => negb (margin_byte a)
  end.

Fixpoint ends_solid (needle : string) : bool :=
  match needle with
  | EmptyString => false
  | String a EmptyString => negb (margin_byte a)
  | String _ needle' => ends_solid needle'
  end.

(** Every byte of the text is one of a margin. *)
Fixpoint margin (s : string) : bool :=
  match s with
  | EmptyString => true
  | String c s' => margin_byte c && margin s'
  end.

End PyStr.

Notation "needle 'in_str' hay" := (PyStr.contains needle hay)
  (at level 65, no associativity).

(** ** The domain filter *)

Definition keywords : list string :=
  [ "tax"; "gst"; "income"; "itr"; "capital gain"; "deduction";
    "filing"; "assessment"; "refund"; "audit"; "financial year";
    "finance"; "exemption"; "tds"; "income tax"; "taxable"; "section";
    "investment" ].

Definition is_finance_tax_related (query : string) : bool :=
  let query_lower := PyStr.lower query in
  existsb (fun kw => kw in_str query_lower) keywords.

(** ** Exceptions, outcomes and the world *)

(** A Python exception, an instance of [Exception]; [str e] is [str(e)].
    [KeyboardInterrupt] and [SystemExit], which [except Exception] lets
    through, are signals to the process, not failures of a call. *)
Inductive Exn : Type := Exception (msg : string).

Definition str (e : Exn) : string :=
  match e with Exception msg => msg end.

Inductive Outcome (A : Type) : Type :=
| Ret (a : A)
| Raise (e : Exn).

Arguments Ret {A} a.
Arguments Raise {A} e.

(** A retrieved chunk; only [page_content] is read. *)
Record Doc : Type := { page_content : string }.

(** One turn of the conversation memory: the question and the chain's answer. *)
Definition Turn : Type := (string * string)%type.

(** What [print] writes; the f-strings are kept by their arguments. *)
Inductive PrintLine : Type :=
| RateLimitLine (wait_time : Z)
| ApiErrorLine (e : Exn)
| RetrievalErrorLine (e : Exn)
| ChainErrorLine (e : Exn)
| ChatErrorLine (e : Exn).

(** The calls [app.py] itself makes to its collaborators, in the order they
    are made: [retriever.invoke] (line 84), [qa_chain.invoke] (line 92),
    [llm.predict] (line 70), [time.sleep] and [print].  [EvFallback] marks an
    entry into [call_llm_with_retry].  One [EvChain] stands for a whole run
    of the chain: the retrieval and the model calls the chain makes on its
    own during the run are LangChain's, and leave no event of their own. *)
Inductive Event : Type :=
| EvRetrieve (k : Z) (query : string)
| EvChain (query : string)
| EvFallback (query : string)
| EvPredict (query : string)
| EvSleep (seconds : Z)
| EvPrint (line : PrintLine).

(** The process-wide state: the module-level [memory], the number of
    [llm.predict] calls made so far, and the trace. *)
Record World : Type := {
  memory : list Turn;
  llm_calls : nat;
  trace : list Event
}.

(** The external collaborators.
    - [retriever_invoke k query]: [retriever.invoke(query)] on the retriever
      built with [search_kwargs={"k": k}];
    - [qa_chain_call query history]: the text under ["answer"] that
      [ConversationalRetrievalChain] generates for [query] with the memory's
      [history], or the exception it raises (the chain retrieves and calls
      the model on its own; both are inside this oracle);
    - [llm_predict i query]: the [i]-th call of [llm.predict] in the life of
      the process. *)
Record Env : Type := {
  retriever_invoke : Z -> string -> Outcome (list Doc);
  qa_chain_call : string -> list Turn -> Outcome string;
  llm_predict : nat -> string -> Outcome string
}.

(** ** The state-and-exception monad *)

Definition M (A : Type) : Type := World -> Outcome A * World.

#[global] Instance M_ret : MRet M := fun A a w => (Ret a, w).

Definition raise {A : Type} (e : Exn) : M A := fun w => (Raise e, w).

#[global] Instance M_bind : MBind M := fun A B k m w =>
  match m w with
  | (Ret a, w') => k a w'
  | (Raise e, w') => (Raise e, w')
  end.

(** [try: m  except Exception as e: handler e]. *)
Definition try_except {A : Type} (m : M A) (handler : Exn -> M A) : M A :=
  fun w =>
    match m w with
    | (Ret a, w') => (Ret a, w')
    | (Raise e, w') => handler e w'
    end.

Definition lift {A : Type} (o : Outcome A) : M A := fun w => (o, w).

Definition record (ev : Event) (w : World) : World :=
  {| memory := memory w; llm_calls := llm_calls w; trace := trace w ++ [ev] |}.

Definition emit (ev : Event) : M unit := fun w => (Ret tt, record ev w).

Definition print (line : PrintLine) : M unit := emit (EvPrint line).

(** [time.sleep(seconds)]. *)
Definition sleep (seconds : Z) : M unit := emit (EvSleep seconds).

(** [retriever.invoke(query)]. *)
Definition invoke_retriever (env : Env) (k : Z) (query : string) : M (list Doc) :=
  fun w => (retriever_invoke env k query, record (EvRetrieve k query) w).

(** [llm.predict(query)]. *)
Definition predict (env : Env) (query : string) : M string :=
  fun w =>
    (llm_predict env (llm_calls w) query,
     {| memory := memory w;
        llm_calls := S (llm_calls w);
        trace := trace w ++ [EvPredict query] |}).

(** [qa_chain.invoke({"question": query, ...})["answer"]] for the chain built
    with [memory=memory].  LangChain's [Chain.invoke] loads the history from
    the memory, runs the chain, and calls [memory.save_context] with the
    question and the answer only once the run has returned; a run that raises
    leaves the memory as it was.  [ConversationBufferMemory] keeps every turn
    ([max_token_limit] is not one of its fields), so saving is an append.
    The chain's output always carries ["answer"], so the default of
    [response.get("answer", "")] is never taken.  During its run the chain
    queries the retriever and the model it was built with (line 90) again;
    the oracle [qa_chain_call] answers for the run as a whole, and the trace
    gets the one event of the call [app.py] makes. *)
Definition invoke_qa_chain (env : Env) (query : string) : M string :=
  fun w =>
    let w1 := record (EvChain query) w in
    match qa_chain_call env query (memory w) with
    | Ret answer =>
        (Ret answer,
         {| memory := memory w1 ++ [(query, answer)];
            llm_calls := llm_calls w1;
            trace := trace w1 |})
    | Raise e => (Raise e, w1)
    end.

(** ** The fallback answerer *)

Definition apology_msg : string :=
  "Sorry, I encountered an error processing your request.".

Definition issues_msg : string :=
  "I am currently experiencing issues. Please try again later.".

(** [range(n)]. *)
Definition range (n : Z) : list Z := seqZ 0 n.

(** One iteration of the [for] loop: [Some v] when the body executes
    [return v], [None] when it falls through to the next iteration. *)
Definition retry_body (env : Env) (query : string) (attempt : Z) : M (option string) :=
  try_except
    (v ← predict env query; mret (Some v))
    (fun e =>
       if "429" in_str str e then
         let wait_time := 2 ^ attempt in
         print (RateLimitLine wait_time) ;;
         sleep wait_time ;;
         mret None
       else
         print (ApiErrorLine e) ;;
         mret (Some apology_msg)).

Fixpoint retry_loop (env : Env) (query : string) (attempts : list Z) : M string :=
  match attempts with
  | [] => mret issues_msg
  | attempt :: rest =>
      r ← retry_body env query attempt;
      match r with
      | Some v => mret v
      | None => retry_loop env query rest
      end
  end.

Definition call_llm_with_retry (env : Env) (query : string) (max_retries : Z) : M string :=
  emit (EvFallback query) ;;
  retry_loop env query (range max_retries).

(** The default [max_retries=3]. *)
Definition default_max_retries : Z := 3.

(** ** The answer composer *)

Definition nl : string := String (Ascii.ascii_of_nat 10) EmptyString.

Definition additional_info_label : string :=
  nl +:+ nl +:+ "🔹 Additional info from LLM:" +:+ nl.

Definition reject_disclaiming : string :=
  "⚠️ I can only answer finance or tax-related queries. Please try again with a relevant question.".

Definition reject_chain_error : string :=
  "⚠️ I can only answer finance or tax-related queries.".

Definition reject_ungrounded : string :=
  "⚠️ I can only answer finance or tax-related queries. Please ask something related to tax or finance.".

(** [bool(l)] for a list. *)
Definition nonempty {A : Type} (l : list A) : bool :=
  match l with [] => false | _ :: _ => true end.

(** [retrieved_docs and any(doc.page_content.strip() for doc in retrieved_docs)]. *)
Definition has_text (retrieved_docs : list Doc) : bool :=
  nonempty retrieved_docs
  && existsb (fun doc => PyStr.truthy (PyStr.strip (page_content doc))) retrieved_docs.

(** The test of line 94: one of the two disclaimer phrases occurs in the
    lower-cased text. *)
Definition disclaims (faiss_answer : string) : bool :=
  ("not mention" in_str PyStr.lower faiss_answer)
  || ("does not contain" in_str PyStr.lower faiss_answer).

Definition get_answer (env : Env) (query : string) : M string :=
  retrieved_docs ←
    try_except (invoke_retriever env 5 query)
      (fun e => print (RetrievalErrorLine e) ;; mret []);
  if has_text retrieved_docs then
    try_except
      (answer ← invoke_qa_chain env query;
       let faiss_answer := PyStr.strip answer in
       if disclaims faiss_answer then
         if is_finance_tax_related query then
           llm_answer ← call_llm_with_retry env query default_max_retries;
           mret (faiss_answer +:+ additional_info_label +:+ llm_answer)
         else
           mret reject_disclaiming
       else
         mret faiss_answer)
      (fun e =>
         print (ChainErrorLine e) ;;
         if is_finance_tax_related query then
           call_llm_with_retry env query default_max_retries
         else
           mret reject_chain_error)
  else
    if is_finance_tax_related query then
      call_llm_with_retry env query default_max_retries
    else
      mret reject_ungrounded.

(** ** The HTTP endpoint *)

(** What [request.get_json()] hands to the handler: [None] (a JSON [null],
    or no JSON body under a Flask that does not raise for it), a JSON
    object, or another JSON value (a list, a string, a number, a boolean),
    kept by the name of its Python type.  The objects modelled are those of
    the endpoint's contract, whose fields have string values; an object with
    a "message" that is not a string (a number, a list, [null]) is outside
    the model, and nothing below speaks about it. *)
Inductive Json : Type :=
| JNull
| JObject (fields : gmap string string)
| JOther (type_name : string).

(** A POST to [/chat]: [get_json] raises when Flask cannot read a JSON body
    (no body, a content type that is not JSON, text that does not parse). *)
Record Request : Type := { get_json : Outcome Json }.

(** A Flask response: the status code and the object given to [jsonify]. *)
Record Response : Type := { status : Z; body : gmap string string }.

(** [AttributeError] for a value that has no method [get]. *)
Definition no_get_error (type_name : string) : Exn :=
  Exception ("'" +:+ type_name +:+ "' object has no attribute 'get'").

(** [data.get(key)]: only a dict has the method. *)
Definition data_get (data : Json) (key : string) : M (option string) :=
  match data with
  | JNull => raise (no_get_error "NoneType")
  | JObject fields => mret (fields !! key)
  | JOther type_name => raise (no_get_error type_name)
  end.

Definition chat (env : Env) (request : Request) : M Response :=
  try_except
    (data ← lift (get_json request);
     user_message ← data_get data "message";
     match user_message with
     | Some (String c rest) =>
         answer ← get_answer env (String c rest);
         mret {| status := 200;
                body := {[ "answer" := answer; "source" := "OpenAI/LangChain" ]} |}
     | _ =>
         mret {| status := 400; body := {[ "error" := "No message provided." ]} |}
     end)
    (fun e =>
       print (ChatErrorLine e) ;;
       mret {| status := 500; body := {[ "error" := str e ]} |}).

(** The world a fresh process starts serving from. *)
Definition initial_world : World :=
  {| memory := []; llm_calls := 0%nat; trace := [] |}.

(** ** Reading a trace *)

Definition is_fallback (ev : Event) : bool :=
  match ev with EvFallback _ => true | _ => false end.

Definition is_predict (ev : Event) : bool :=
  match ev with EvPredict _ => true | _ => false end.

(** The events the retry loop itself can add. *)
Definition is_llm_event (ev : Event) : bool :=
  match ev with
  | EvPredict _ | EvSleep _ | EvPrint _ => true
  | EvRetrieve _ _ | EvChain _ | EvFallback _ => false
  end.

(** How often [call_llm_with_retry] was entered. *)
Definition fallback_entries (tr : list Event) : nat :=
  length (List.filter is_fallback tr).

(** How often [llm.predict] was called. *)
Definition predict_calls (tr : list Event) : nat :=
  length (List.filter is_predict tr).

(** The arguments of the [time.sleep] calls, in order. *)
Definition sleeps (tr : list Event) : list Z :=
  flat_map (fun ev => match ev with EvSleep s => [s] | _ => [] end) tr.

(** The world after the events [evs], [calls] of them calls of
    [llm.predict], with the memory as it was. *)
Definition extend (w : World) (evs : list Event) (calls : nat) : World :=
  {| memory := memory w;
     llm_calls := calls + llm_calls w;
     trace := trace w ++ evs |}.

(** The world after a turn was saved to the memory. *)
Definition remember (turn : Turn) (w : World) : World :=
  {| memory := memory w ++ [turn];
     llm_calls := llm_calls w;
     trace := trace w |}.

(** A failure of [llm.predict] that carries the rate-limit signature. *)
Definition is_rate_limit (o : Outcome string) : bool :=
  match o with
  | Raise e => "429" in_str str e
  | Ret _ => false
  end.

(** What one rate-limited attempt leaves in the trace. *)
Definition backoff_round (query : string) (attempt : Z) : list Event :=
  [EvPredict query; EvPrint (RateLimitLine (2 ^ attempt)); EvSleep (2 ^ attempt)].

Definition backoff_rounds (query : string) (attempts : list Z) : list Event :=
  flat_map (backoff_round query) attempts.

(** The events of [w'] that were not yet in [w]. *)
Definition events_since (w w' : World) : list Event :=
  drop (length (trace w)) (trace w').


(** The environment with another retriever. *)
Definition with_retriever (env : Env) (r : Z -> string -> Outcome (list Doc)) : Env :=
  {| retriever_invoke := r;
     qa_chain_call := qa_chain_call env;
     llm_predict := llm_predict env |}.

(** What both ungrounded branches and the handler of the chain do. *)
Definition gated_fallback (env : Env) (query : string) (rejection : string) : M string :=
  if is_finance_tax_related query then
    call_llm_with_retry env query default_max_retries
  else
    mret rejection.

(** The world once the chain has answered: two calls in the trace, one
    more turn in the memory. *)
Definition after_chain (query : string) (w : World) (answer : string) : World :=
  remember (query, answer) (extend w [EvRetrieve 5 query; EvChain query] 0).

(** Why a request leaves the grounded path: the retriever raised, it
    returned no chunk with text, the chain raised, or the chain's answer
    holds one of the two disclaimer phrases (in any case of letters). *)
Inductive FallbackReason : Type :=
| RetrievalFailed (e : Exn)
| RetrievalEmpty (docs : list Doc)
| GenerationFailed (docs : list Doc) (e : Exn)
| Disclaimed (docs : list Doc) (answer : string).

Definition reaches_fallback (env : Env) (query : string) (w : World)
    (reason : FallbackReason) : Prop :=
  match reason with
  | RetrievalFailed e => retriever_invoke env 5 query = Raise e
  | RetrievalEmpty docs =>
      retriever_invoke env 5 query = Ret docs /\ has_text docs = false
  | GenerationFailed docs e =>
      retriever_invoke env 5 query = Ret docs /\ has_text docs = true
      /\ qa_chain_call env query (memory w) = Raise e
  | Disclaimed docs answer =>
      retriever_invoke env 5 query = Ret docs /\ has_text docs = true
      /\ qa_chain_call env query (memory w) = Ret answer
      /\ disclaims answer = true
  end.

(** The rejection each of these branches returns for a query outside the
    domain: the same opening sentence, with a different closing one. *)
Definition rejection_of (reason : FallbackReason) : string :=
  match reason with
  | RetrievalFailed _ | RetrievalEmpty _ => reject_ungrounded
  | GenerationFailed _ _ => reject_chain_error
  | Disclaimed _ _ => reject_disclaiming
  end.

(** The three responses of the endpoint. *)
Definition no_message_response : Response :=
  {| status := 400; body := {[ "error" := "No message provided." ]} |}.

Definition answer_response (answer : string) : Response :=
  {| status := 200;
     body := {[ "answer" := answer; "source" := "OpenAI/LangChain" ]} |}.

Definition error_response (e : Exn) : Response :=
  {| status := 500; body := {[ "error" := str e ]} |}.

(** ** Start-up (module level, lines 15 to 45)

    What the module does when it is imported, up to the loaded documents:
    the credential check, the folder check, the listing of the PDF files and
    the loading loop.  [ChatOpenAI(...)] (line 25) only builds a client and
    is not shown.  Splitting, embedding and indexing (lines 47 to 52) are
    calls into libraries on the documents this part returns. *)

(** [s.endswith(suffix)]. *)
Fixpoint endswith (suffix s : string) : bool :=
  if String.eqb s suffix then true
  else
    match s with
    | EmptyString => false
    | String _ s' => endswith suffix s'
    end.

(** The exceptions that end the start-up: the two the module raises itself,
    by their class, and whatever a library call raises. *)
Inductive StartupError : Type :=
| EnvironmentError (msg : string)
| FileNotFoundError (msg : string)
| LibraryError (e : Exn).

Inductive Startup (A : Type) : Type :=
| Started (a : A)
| Aborted (err : StartupError).

Arguments Started {A} a.
Arguments Aborted {A} err.

(** What the start-up touches, in order; [SeLoaded] is the [print] of
    line 45. *)
Inductive StartupEvent : Type :=
| SeExists (path : string)
| SeListdir (path : string)
| SeLoad (pdf_file : string)
| SeLoaded (count : nat) (folder : string).

(** The machine the module starts on: [os.environ] once [load_dotenv()] has
    run, [os.path.exists], [os.listdir], [os.path.join], and
    [PyPDFLoader(path).load()]. *)
Record Host : Type := {
  environ : gmap string string;
  path_exists : string -> bool;
  listdir : string -> Outcome (list string);
  path_join : string -> string -> string;
  pdf_load : string -> Outcome (list Doc)
}.

Definition pdf_folder : string :=
  "C:\Users\aksha\EZTax-INDIA\PlakshaChatbot\tax_pdfs".

Definition no_key_msg : string :=
  "❌ OPENAI_API_KEY not found in environment. Please set it in your .env file.".

Definition no_folder_msg : string := "❌ Folder not found: " +:+ pdf_folder.

Definition no_pdf_msg : string := "❌ No PDF files found in " +:+ pdf_folder.

(** The list comprehension of line 36. *)
Definition pdf_files_of (host : Host) (names : list string) : list string :=
  map (path_join host pdf_folder) (List.filter (endswith ".pdf") names).

(** The loop of lines 41 to 43, from the documents loaded so far. *)
Fixpoint load_pdfs (host : Host) (pdf_files : list string) (docs : list Doc)
    : Startup (list Doc) * list StartupEvent :=
  match pdf_files with
  | [] => (Started docs, [])
  | pdf_file :: rest =>
      match pdf_load host pdf_file with
      | Ret pages =>
          let (r, log) := load_pdfs host rest (docs ++ pages) in
          (r, SeLoad pdf_file :: log)
      | Raise e => (Aborted (LibraryError e), [SeLoad pdf_file])
      end
  end.

Definition startup (host : Host) : Startup (list Doc) * list StartupEvent :=
  match environ host !! "OPENAI_API_KEY" with
  | Some (String _ _) =>
      if path_exists host pdf_folder then
        match listdir host pdf_folder with
        | Ret names =>
            match pdf_files_of host names with
            | [] =>
                (Aborted (FileNotFoundError no_pdf_msg),
                 [SeExists pdf_folder; SeListdir pdf_folder])
            | pdf_files =>
                match load_pdfs host pdf_files [] with
                | (Started docs, log) =>
                    (Started docs,
                     [SeExists pdf_folder; SeListdir pdf_folder] ++ log
                       ++ [SeLoaded (length docs) pdf_folder])
                | (Aborted err, log) =>
                    (Aborted err,
                     [SeExists pdf_folder; SeListdir pdf_folder] ++ log)
                end
            end
        | Raise e =>
            (Aborted (LibraryError e),
             [SeExists pdf_folder; SeListdir pdf_folder])
        end
      else
        (Aborted (FileNotFoundError no_folder_msg), [SeExists pdf_folder])
  | _ => (Aborted (EnvironmentError no_key_msg), [])
  end.

(** The files the loop asked the loader for, in order. *)
Definition loads (log : list StartupEvent) : list string :=
  flat_map (fun ev => match ev with SeLoad p => [p] | _ => [] end) log.

(** The pages of a file that loads, none for one that does not. *)
Definition pages_of (host : Host) (pdf_file : string) : list Doc :=
  match pdf_load host pdf_file with
  | Ret pages => pages
  | Raise _ => []
  end.

Definition loads_fine (host : Host) (pdf_file : string) : bool :=
  match pdf_load host pdf_file with
  | Ret _ => true
  | Raise _ => false
  end.

(** ** More readers of the trace *)

Definition is_retrieve (ev : Event) : bool :=
  match ev with EvRetrieve _ _ => true | _ => false end.

Definition is_chain (ev : Event) : bool :=
  match ev with EvChain _ => true | _ => false end.

(** How often [retriever.invoke] was called. *)
Definition retrieve_calls (tr : list Event) : nat :=
  length (List.filter is_retrieve tr).

(** How often [qa_chain.invoke] was called. *)
Definition chain_calls (tr : list Event) : nat :=
  length (List.filter is_chain tr).

(** The seconds spent in [time.sleep]. *)
Definition total_sleep (tr : list Event) : Z :=
  fold_right Z.add 0 (sleeps tr).

(** The event hands [query] itself to the collaborator it calls. *)
Definition about_query (query : string) (ev : Event) : bool :=
  match ev with
  | EvRetrieve _ q | EvChain q | EvFallback q | EvPredict q => String.eqb q query
  | EvSleep _ | EvPrint _ => true
  end.

(** Every character of the text is white space ([""] included). *)
Fixpoint all_space (s : string) : bool :=
  match s with
  | EmptyString => true
  | String a s1 =>
      if PyStr.space1 a then all_space s1
      else
        match s1 with
        | EmptyString => false
        | String b s2 =>
            if PyStr.space2 a b then all_space s2
            else
              match s2 with
              | EmptyString => false
              | String c s3 => PyStr.space3 a b c && all_space s3
              end
        end
  end.

(** The no-break space U+00A0, by its two bytes. *)
Definition nbsp : string :=
  String (Ascii.ascii_of_nat 194) (String (Ascii.ascii_of_nat 160) EmptyString).

(** The ideographic space U+3000, by its three bytes. *)
Definition ideographic_space : string :=
  String (Ascii.ascii_of_nat 227)
    (String (Ascii.ascii_of_nat 128) (String (Ascii.ascii_of_nat 128) EmptyString)).

(** The request is answered from the documents and the answer does not
    disclaim: the one path on which the composer is done without looking at
    the domain filter. *)
Definition grounded_clean (env : Env) (query : string) (w : World) : bool :=
  match retriever_invoke env 5 query with
  | Ret docs =>
      has_text docs
      && match qa_chain_call env query (memory w) with
         | Ret answer => negb (disclaims answer)
         | Raise _ => false
         end
  | Raise _ => false
  end.

(** ** Scenarios

    Environments the statements below are exercised on. *)

Definition stub_429_twice : Env :=
  {| retriever_invoke := fun _ _ => Ret [];
     qa_chain_call := fun _ _ => Raise (Exception "not called");
     llm_predict := fun i _ =>
       if (i <? 2)%nat
       then Raise (Exception "Error code: 429 - Rate limit reached")
       else Ret "GST is a tax on goods and services." |}.

Definition stub_429_always : Env :=
  {| retriever_invoke := fun _ _ => Ret [];
     qa_chain_call := fun _ _ => Raise (Exception "not called");
     llm_predict := fun _ _ =>
       Raise (Exception "Error code: 429 - Rate limit reached") |}.

Definition stub_unauthorized : Env :=
  {| retriever_invoke := fun _ _ => Ret [];
     qa_chain_call := fun _ _ => Raise (Exception "not called");
     llm_predict := fun _ _ =>
       Raise (Exception "Error code: 401 - Incorrect API key provided") |}.

Definition env_disclaiming : Env :=
  {| retriever_invoke := fun _ _ =>
       Ret [ {| page_content := "Section 80C: deductions on investments." |} ];
     qa_chain_call := fun _ _ =>
       Ret " The provided context does NOT mention that. ";
     llm_predict := fun _ _ => Ret "Here is what I know." |}.

Definition env_index_down : Env :=
  {| retriever_invoke := fun _ _ => Raise (Exception "index unavailable");
     qa_chain_call := fun _ _ => Ret "not called";
     llm_predict := fun _ _ => Ret "Section 80C allows deductions up to 1.5 lakh." |}.

Definition env_grounded : Env :=
  {| retriever_invoke := fun _ _ =>
       Ret [ {| page_content := "Section 80C: deductions on investments." |} ];
     qa_chain_call := fun _ _ =>
       Ret " Section 80C allows deductions up to 1.5 lakh. ";
     llm_predict := fun _ _ => Ret "not called" |}.

Definition env_chain_down : Env :=
  {| retriever_invoke := fun _ _ =>
       Ret [ {| page_content := "Section 80C: deductions on investments." |} ];
     qa_chain_call := fun _ _ => Raise (Exception "Connection error.");
     llm_predict := fun _ _ => Ret "Here is what I know." |}.

(** * Properties *)

Example filter_gst : is_finance_tax_related "What is GST refund?" = true.
Proof. reflexivity. Qed.

Example filter_weather : is_finance_tax_related "What's the weather?" = false.
Proof. reflexivity. Qed.


(** ** Substring search, lower-casing and stripping *)

Module PyStrFacts.
Import PyStr.

Lemma append_cons (c : ascii) (s t : string) :
  String c s +:+ t = String c (s +:+ t).
Proof. reflexivity. Qed.

Lemma startswith_iff (p s : string) :
  startswith p s = true <-> exists post : string, s = p +:+ post.
Proof.
  revert s; induction p as [|a p IH]; intros s; cbn [startswith].
  - split; [intros _; now exists s | reflexivity].
  - setoid_rewrite append_cons. destruct s as [|b s].
    + split; [discriminate | intros [post H]; discriminate].
    + destruct (Ascii.eqb_spec a b) as [->|Hab].
      * rewrite IH. split; intros [post H]; exists post; congruence.
      * split; [discriminate | intros [post H]; congruence].
Qed.

Lemma contains_iff (needle hay : string) :
  contains needle hay = true <-> Substring needle hay.
Proof.
  unfold Substring.
  induction hay as [|c hay IH]; cbn [contains].
  - rewrite startswith_iff. split.
    + intros [post H]. now exists EmptyString, post.
    + intros [[|c pre] [post H]]; [now exists post | discriminate].
  - rewrite orb_true_iff, startswith_iff, IH. split.
    + intros [[post H]|[pre [post H]]].
      * now exists EmptyString, post.
      * exists (String c pre), post. now rewrite append_cons, H.
    + intros [[|c' pre] [post H]].
      * left. now exists post.
      * right. exists pre, post. rewrite append_cons in H. congruence.
Qed.

Lemma contains_false_iff (needle hay : string) :
  contains needle hay = false <-> ~ Substring needle hay.
Proof.
  rewrite <- contains_iff. symmetry. apply not_true_iff_false.
Qed.

(** *** White space under lower-casing *)

Lemma space1_lower (c : ascii) : space1 (lower_char c) = space1 c.
Proof. destruct c as [[] [] [] [] [] [] [] []]; reflexivity. Qed.

Lemma space2_lower (a b : ascii) :
  space2 (lower_char a) (lower_char b) = space2 a b.
Proof.
  transitivity (space2 a (lower_char b)).
  - destruct a as [[] [] [] [] [] [] [] []]; reflexivity.
  - destruct b as [[] [] [] [] [] [] [] []]; reflexivity.
Qed.

Lemma space3_lower (a b c : ascii) :
  space3 (lower_char a) (lower_char b) (lower_char c) = space3 a b c.
Proof.
  transitivity (space3 a (lower_char b) (lower_char c)).
  - destruct a as [[] [] [] [] [] [] [] []]; reflexivity.
  - transitivity (space3 a b (lower_char c)).
    + destruct b as [[] [] [] [] [] [] [] []]; reflexivity.
    + destruct c as [[] [] [] [] [] [] [] []]; reflexivity.
Qed.

Lemma is_space_lower (t : string) : is_space (lower t) = is_space t.
Proof.
  destruct t as [|a [|b [|c [|d t]]]]; cbn [lower is_space];
    auto using space1_lower, space2_lower, space3_lower.
Qed.

Lemma after_space_lower (s : string) :
  after_space (lower s) = option_map lower (after_space s).
Proof.
  destruct s as [|a [|b [|c s3]]]; cbn [lower after_space];
    rewrite ?space1_lower, ?space2_lower, ?space3_lower;
    repeat match goal with
           | |- context [if ?t then _ else _] => destruct t
           end; reflexivity.
Qed.

(** *** Stripping, one character at a time *)

Lemma string_length_ind (P : string -> Prop) :
  (forall s : string,
     (forall t : string, (String.length t < String.length s)%nat -> P t) -> P s) ->
  forall s : string, P s.
Proof.
  intros H.
  assert (Hn : forall (n : nat) (s : string), (String.length s < n)%nat -> P s).
  { induction n as [|n IH]; intros s Hs; [lia|].
    apply H. intros t Ht. apply IH. lia. }
  intros s. apply (Hn (S (String.length s))). lia.
Qed.

Lemma after_space_split (s rest : string) :
  after_space s = Some rest ->
  exists t : string, s = t +:+ rest /\ is_space t = true.
Proof.
  destruct s as [|a s1]; [discriminate|]. cbn [after_space].
  destruct (space1 a) eqn:H1.
  { intros [= <-]. now exists (String a EmptyString). }
  destruct s1 as [|b s2]; [discriminate|].
  destruct (space2 a b) eqn:H2.
  { intros [= <-]. now exists (String a (String b EmptyString)). }
  destruct s2 as [|c s3]; [discriminate|].
  destruct (space3 a b c) eqn:H3; [|discriminate].
  intros [= <-]. now exists (String a (String b (String c EmptyString))).
Qed.

Lemma after_space_shorter (s rest : string) :
  after_space s = Some rest -> (String.length rest < String.length s)%nat.
Proof.
  intros H. destruct (after_space_split s rest H) as (t & -> & Ht).
  destruct t as [|a [|b [|c [|d t]]]]; try discriminate;
    rewrite !append_cons; change (EmptyString +:+ rest) with rest;
    cbn [String.length]; lia.
Qed.

Lemma lstrip_unfold (s : string) :
  lstrip s
  = match after_space s with
    | Some rest => lstrip rest
    | None => s
    end.
Proof.
  destruct s as [|a s1]; [reflexivity|]. cbn [lstrip after_space].
  destruct (space1 a); [reflexivity|].
  destruct s1 as [|b s2]; [reflexivity|]. cbn [lstrip after_space].
  destruct (space2 a b); [reflexivity|].
  destruct s2 as [|c s3]; [reflexivity|]. cbn [lstrip after_space].
  now destruct (space3 a b c).
Qed.

Lemma all_space_unfold (s : string) :
  all_space s
  = match s with
    | EmptyString => true
    | String _ _ =>
        match after_space s with
        | Some rest => all_space rest
        | None => false
        end
    end.
Proof.
  destruct s as [|a s1]; [reflexivity|]. cbn [all_space after_space].
  destruct (space1 a); [reflexivity|].
  destruct s1 as [|b s2]; [reflexivity|]. cbn [all_space after_space].
  destruct (space2 a b); [reflexivity|].
  destruct s2 as [|c s3]; [reflexivity|]. cbn [all_space after_space].
  now destruct (space3 a b c).
Qed.

Lemma lower_lstrip (s : string) : lower (lstrip s) = lstrip (lower s).
Proof.
  induction s as [s IH] using string_length_ind.
  rewrite (lstrip_unfold s), (lstrip_unfold (lower s)), after_space_lower.
  destruct (after_space s) as [rest|] eqn:Hs; cbn [option_map]; [|reflexivity].
  apply IH. now apply after_space_shorter.
Qed.

Lemma lower_rstrip (s : string) : lower (rstrip s) = rstrip (lower s).
Proof.
  induction s as [|c s IH]; [reflexivity|].
  cbn [rstrip lower]. cbv zeta. rewrite <- IH.
  change (String (lower_char c) (lower (rstrip s)))
    with (lower (String c (rstrip s))).
  rewrite is_space_lower. now destruct (is_space (String c (rstrip s))).
Qed.

Lemma lower_strip (s : string) : lower (strip s) = strip (lower s).
Proof. unfold strip. now rewrite lower_rstrip, lower_lstrip. Qed.

(** *** The bytes of white space *)

Lemma space1_margin (a : ascii) : space1 a = true -> margin_byte a = true.
Proof. unfold margin_byte. now intros ->. Qed.

Lemma space2_margin (a b : ascii) :
  space2 a b = true ->
  margin_byte a = true /\ margin_byte b = true /\ space1 a = false.
Proof.
  unfold space2, margin_byte, space1. intros H.
  rewrite andb_true_iff, orb_true_iff, !N.eqb_eq in H. destruct H as (Ha & Hb).
  repeat split.
  - apply orb_true_iff. right. apply N.leb_le. lia.
  - apply orb_true_iff. right. apply N.leb_le. lia.
  - apply not_true_iff_false.
    rewrite orb_true_iff, !andb_true_iff, !N.leb_le. lia.
Qed.

Lemma space3_margin (a b c : ascii) :
  space3 a b c = true ->
  margin_byte a = true /\ margin_byte b = true /\ margin_byte c = true
  /\ space1 a = false /\ space2 a b = false.
Proof.
  unfold space3, space2, margin_byte, space1.
  intros H.
  rewrite !orb_true_iff, !andb_true_iff, !orb_true_iff, !andb_true_iff,
    !N.eqb_eq, !N.leb_le in H.
  repeat split.
  - apply orb_true_iff. right. apply N.leb_le. lia.
  - apply orb_true_iff. right. apply N.leb_le. lia.
  - apply orb_true_iff. right. apply N.leb_le. lia.
  - apply not_true_iff_false.
    rewrite orb_true_iff, !andb_true_iff, !N.leb_le. lia.
  - apply not_true_iff_false.
    rewrite andb_true_iff, orb_true_iff, !N.eqb_eq. lia.
Qed.

Lemma is_space_margin (t : string) : is_space t = true -> margin t = true.
Proof.
  destruct t as [|a [|b [|c [|d t]]]]; try discriminate; cbn [is_space margin].
  - intros H. now rewrite (space1_margin a H).
  - intros H. destruct (space2_margin a b H) as (-> & -> & _). reflexivity.
  - intros H. destruct (space3_margin a b c H) as (-> & -> & -> & _). reflexivity.
Qed.

Lemma margin_app (s t : string) : margin (s +:+ t) = margin s && margin t.
Proof.
  induction s as [|c s IH]; [reflexivity|].
  rewrite append_cons. cbn [margin]. now rewrite IH, andb_assoc.
Qed.

Lemma all_space_after (t p : string) :
  is_space t = true -> all_space (t +:+ p) = all_space p.
Proof.
  destruct t as [|a [|b [|c [|d t]]]]; try discriminate; cbn [is_space];
    intros H; rewrite !append_cons; cbn [all_space].
  - now rewrite H.
  - destruct (space2_margin a b H) as (_ & _ & ->). now rewrite H.
  - destruct (space3_margin a b c H) as (_ & _ & _ & -> & ->). now rewrite H.
Qed.

Lemma append_snoc (r p : string) (c : ascii) :
  (r +:+ String c EmptyString) +:+ p = r +:+ String c p.
Proof.
  induction r as [|x r IH]; [reflexivity|].
  now rewrite !append_cons, IH.
Qed.

Lemma append_empty_r (s : string) : s +:+ EmptyString = s.
Proof.
  induction s as [|x s IH]; [reflexivity | now rewrite append_cons, IH].
Qed.

(** *** Occurrences and the margins *)

Lemma contains_skip_byte (needle rest : string) (c : ascii) :
  begins_solid needle = true -> margin_byte c = true ->
  contains needle (String c rest) = contains needle rest.
Proof.
  destruct needle as [|a needle]; [discriminate|]. cbn [begins_solid].
  intros Ha Hc. cbn [contains startswith].
  destruct (Ascii.eqb_spec a c) as [->|_]; [|reflexivity].
  rewrite Hc in Ha. discriminate.
Qed.

Lemma contains_skip_margin (needle t rest : string) :
  begins_solid needle = true -> margin t = true ->
  contains needle (t +:+ rest) = contains needle rest.
Proof.
  intros Hn. induction t as [|c t IH]; [reflexivity|].
  cbn [margin]. intros [Hc Ht]%andb_prop.
  rewrite append_cons, (contains_skip_byte _ _ _ Hn Hc). now apply IH.
Qed.

Lemma contains_lstrip (needle s : string) :
  begins_solid needle = true ->
  contains needle (lstrip s) = contains needle s.
Proof.
  intros Hn. induction s as [s IH] using string_length_ind.
  rewrite lstrip_unfold. destruct (after_space s) as [rest|] eqn:Hs;
    [|reflexivity].
  rewrite (IH rest) by now apply after_space_shorter.
  destruct (after_space_split s rest Hs) as (t & -> & Ht).
  symmetry. apply contains_skip_margin; [exact Hn | now apply is_space_margin].
Qed.

Lemma startswith_snoc (needle u : string) (c : ascii) :
  ends_solid needle = true -> margin_byte c = true ->
  startswith needle (u +:+ String c EmptyString) = startswith needle u.
Proof.
  intros Hn Hc. revert needle Hn.
  induction u as [|x u IH]; intros needle Hn.
  - destruct needle as [|a needle]; [discriminate|].
    change (EmptyString +:+ String c EmptyString) with (String c EmptyString).
    cbn [startswith].
    destruct (Ascii.eqb_spec a c) as [->|_]; [|reflexivity].
    destruct needle as [|b needle]; [|reflexivity].
    cbn [ends_solid] in Hn. rewrite Hc in Hn. discriminate.
  - destruct needle as [|a needle]; [discriminate|].
    rewrite append_cons. cbn [startswith].
    destruct (Ascii.eqb a x); [|reflexivity].
    destruct needle as [|b needle]; [reflexivity|].
    apply IH. exact Hn.
Qed.

Lemma contains_snoc (needle r : string) (c : ascii) :
  ends_solid needle = true -> margin_byte c = true ->
  contains needle (r +:+ String c EmptyString) = contains needle r.
Proof.
  intros Hn Hc. induction r as [|x r IH].
  - change (EmptyString +:+ String c EmptyString) with (String c EmptyString).
    cbn [contains].
    pose proof (startswith_snoc needle EmptyString c Hn Hc) as E.
    change (EmptyString +:+ String c EmptyString) with (String c EmptyString) in E.
    rewrite E. apply orb_diag.
  - rewrite append_cons. cbn [contains]. rewrite IH.
    rewrite <- append_cons, (startswith_snoc needle (String x r) c Hn Hc).
    reflexivity.
Qed.

Lemma contains_app_margin (needle r post : string) :
  ends_solid needle = true -> margin post = true ->
  contains needle (r +:+ post) = contains needle r.
Proof.
  intros Hn. revert r. induction post as [|c post IH]; intros r Hpost.
  - now rewrite append_empty_r.
  - cbn [margin] in Hpost. apply andb_prop in Hpost as [Hc Hpost].
    rewrite <- append_snoc, (IH _ Hpost). now apply contains_snoc.
Qed.

(** What [rstrip] takes off is white space, character after character. *)
Lemma rstrip_split (s : string) :
  exists post : string,
    s = rstrip s +:+ post /\ margin post = true /\ all_space post = true.
Proof.
  induction s as [|c s (post & Hs & Hm & Ha)].
  - exists EmptyString. repeat split.
  - cbn [rstrip]. cbv zeta.
    destruct (is_space (String c (rstrip s))) eqn:Ht.
    + exists (String c (rstrip s) +:+ post). repeat split.
      * rewrite append_cons. now rewrite <- Hs.
      * now rewrite margin_app, (is_space_margin _ Ht), Hm.
      * now rewrite (all_space_after _ _ Ht).
    + exists post. repeat split; try assumption.
      rewrite append_cons. now rewrite <- Hs.
Qed.

Lemma contains_rstrip (needle s : string) :
  ends_solid needle = true ->
  contains needle (rstrip s) = contains needle s.
Proof.
  intros Hn. destruct (rstrip_split s) as (post & Hs & Hm & _).
  rewrite Hs at 2. symmetry. now apply contains_app_margin.
Qed.

Lemma contains_strip (needle s : string) :
  begins_solid needle = true -> ends_solid needle = true ->
  contains needle (strip s) = contains needle s.
Proof.
  intros Hb He. unfold strip.
  now rewrite contains_rstrip, contains_lstrip.
Qed.

(** *** Blank text *)

Lemma all_space_lstrip (s : string) : all_space (lstrip s) = all_space s.
Proof.
  induction s as [s IH] using string_length_ind.
  rewrite lstrip_unfold. destruct (after_space s) as [rest|] eqn:Hs;
    [|reflexivity].
  rewrite (IH rest) by now apply after_space_shorter.
  rewrite (all_space_unfold s), Hs.
  destruct s; [discriminate | reflexivity].
Qed.

Lemma lstrip_blank (s : string) : all_space s = true -> lstrip s = EmptyString.
Proof.
  induction s as [s IH] using string_length_ind.
  rewrite all_space_unfold, lstrip_unfold.
  destruct s as [|a s1]; [reflexivity|].
  destruct (after_space (String a s1)) as [rest|] eqn:Hs; [|discriminate].
  intros Hrest. apply IH; [now apply after_space_shorter | exact Hrest].
Qed.

Lemma strip_blank_iff (s : string) :
  strip s = EmptyString <-> all_space s = true.
Proof.
  unfold strip. split.
  - intros Hr. destruct (rstrip_split (lstrip s)) as (post & Hs & _ & Ha).
    rewrite Hr in Hs. change (EmptyString +:+ post) with post in Hs.
    rewrite <- all_space_lstrip, Hs. exact Ha.
  - intros Ha. now rewrite (lstrip_blank s Ha).
Qed.

(** *** The model at work on text outside ASCII *)

Example strip_takes_unicode_margins :
  strip (nbsp +:+ " Section 80C allows deductions. " +:+ ideographic_space)
  = "Section 80C allows deductions.".
Proof. vm_compute. reflexivity. Qed.

Example strip_keeps_inner_space :
  strip ("80C" +:+ nbsp +:+ "limit") = "80C" +:+ nbsp +:+ "limit".
Proof. vm_compute. reflexivity. Qed.

(** U+200B, the zero-width space (E2 80 8B), is no white space for Python. *)
Example zero_width_space_stays :
  is_space (String (Ascii.ascii_of_nat 226)
              (String (Ascii.ascii_of_nat 128)
                 (String (Ascii.ascii_of_nat 139) EmptyString))) = false.
Proof. vm_compute. reflexivity. Qed.

(** A letter outside ASCII (U+00E9, C3 A9) is kept at the margin. *)
Example strip_keeps_letters :
  strip (String (Ascii.ascii_of_nat 195) (String (Ascii.ascii_of_nat 169) " "))
  = String (Ascii.ascii_of_nat 195) (String (Ascii.ascii_of_nat 169) EmptyString).
Proof. vm_compute. reflexivity. Qed.

End PyStrFacts.

Lemma extend_nil (w : World) : extend w [] 0 = w.
Proof. destruct w; unfold extend; simpl. now rewrite app_nil_r. Qed.

Lemma extend_extend (w : World) (evs1 evs2 : list Event) (c1 c2 : nat) :
  extend (extend w evs1 c1) evs2 c2 = extend w (evs1 ++ evs2) (c2 + c1).
Proof.
  unfold extend; simpl. f_equal; [lia | now rewrite app_assoc].
Qed.

Lemma fallback_entries_app (tr1 tr2 : list Event) :
  fallback_entries (tr1 ++ tr2) = (fallback_entries tr1 + fallback_entries tr2)%nat.
Proof. unfold fallback_entries. now rewrite List.filter_app, length_app. Qed.

Lemma predict_calls_app (tr1 tr2 : list Event) :
  predict_calls (tr1 ++ tr2) = (predict_calls tr1 + predict_calls tr2)%nat.
Proof. unfold predict_calls. now rewrite List.filter_app, length_app. Qed.

Lemma sleeps_app (tr1 tr2 : list Event) :
  sleeps (tr1 ++ tr2) = sleeps tr1 ++ sleeps tr2.
Proof. unfold sleeps. apply flat_map_app. Qed.

Lemma backoff_rounds_counts (query : string) (attempts : list Z) :
  predict_calls (backoff_rounds query attempts) = length attempts
  /\ fallback_entries (backoff_rounds query attempts) = 0%nat
  /\ sleeps (backoff_rounds query attempts) = map (Z.pow 2) attempts.
Proof.
  induction attempts as [|a attempts (IHp & IHf & IHs)]; [easy|].
  unfold backoff_rounds in *. cbn [flat_map].
  rewrite predict_calls_app, fallback_entries_app, sleeps_app, IHp, IHf, IHs.
  easy.
Qed.

Lemma sleeps_fallback_run (query : string) (rounds tail : list Event) :
  sleeps tail = [] ->
  sleeps (EvFallback query :: rounds ++ tail) = sleeps rounds.
Proof.
  intros Ht. change (EvFallback query :: rounds ++ tail)
    with ([EvFallback query] ++ rounds ++ tail).
  rewrite !sleeps_app, Ht. simpl. apply app_nil_r.
Qed.

Lemma predict_calls_fallback_run (query : string) (rounds tail : list Event) :
  predict_calls (EvFallback query :: rounds ++ tail)
  = (predict_calls rounds + predict_calls tail)%nat.
Proof.
  change (EvFallback query :: rounds ++ tail)
    with ([EvFallback query] ++ rounds ++ tail).
  now rewrite !predict_calls_app.
Qed.

Lemma llm_events_no_chain (query : string) (evs : list Event) :
  forallb is_llm_event evs = true -> ~ In (EvChain query) evs.
Proof.
  intros Hall Hin. rewrite forallb_forall in Hall.
  specialize (Hall _ Hin). discriminate.
Qed.

(** ** The retry loop *)

Ltac run_monad :=
  unfold mbind, M_bind, mret, M_ret, try_except, predict, print, sleep, emit,
    lift, raise, invoke_retriever, invoke_qa_chain.

Section Retry.

Variable env : Env.
Variable query : string.

(** One iteration, by the outcome of its call. *)
Lemma retry_body_success (attempt : Z) (w : World) (v : string) :
  llm_predict env (llm_calls w) query = Ret v ->
  retry_body env query attempt w = (Ret (Some v), extend w [EvPredict query] 1).
Proof. intros H. unfold retry_body. run_monad. now rewrite H. Qed.

Lemma retry_body_rate_limit (attempt : Z) (w : World) :
  is_rate_limit (llm_predict env (llm_calls w) query) = true ->
  retry_body env query attempt w
  = (Ret None, extend w (backoff_round query attempt) 1).
Proof.
  intros H. unfold retry_body. run_monad.
  destruct (llm_predict env (llm_calls w) query) as [v|e]; [discriminate|].
  simpl in H. rewrite H. unfold extend, record; simpl.
  now rewrite <- !app_assoc.
Qed.

Lemma retry_body_other_failure (attempt : Z) (w : World) (e : Exn) :
  llm_predict env (llm_calls w) query = Raise e ->
  "429" in_str str e = false ->
  retry_body env query attempt w
  = (Ret (Some apology_msg),
     extend w [EvPredict query; EvPrint (ApiErrorLine e)] 1).
Proof.
  intros H H429. unfold retry_body. run_monad.
  rewrite H, H429. unfold extend, record; simpl.
  now rewrite <- !app_assoc.
Qed.

(** A run of rate-limited attempts is skipped over, each one leaving its
    round of events behind. *)
Lemma retry_loop_backoff (done rest : list Z) (w : World) :
  (forall j : nat, (j < length done)%nat ->
     is_rate_limit (llm_predict env (j + llm_calls w) query) = true) ->
  retry_loop env query (done ++ rest) w
  = retry_loop env query rest
      (extend w (backoff_rounds query done) (length done)).
Proof.
  revert w. induction done as [|a done IH]; intros w H.
  - simpl. now rewrite extend_nil.
  - cbn [app retry_loop]. unfold mbind at 1, M_bind at 1.
    rewrite retry_body_rate_limit by (apply (H 0%nat); simpl; lia).
    rewrite IH.
    + rewrite extend_extend.
      replace (length done + 1)%nat with (length (a :: done)) by (simpl; lia).
      reflexivity.
    + intros j Hj. simpl.
      replace (j + S (llm_calls w))%nat with (S j + llm_calls w)%nat by lia.
      apply H. simpl. lia.
Qed.

(** The loop always returns a string; it calls [llm.predict] at most once
    per attempt, never re-enters the fallback answerer and leaves the
    memory alone.  What it returns and the events it adds depend on the
    world only through the number of earlier [llm.predict] calls. *)
Lemma retry_loop_returns (attempts : list Z) (i : nat) :
  exists (r : string) (evs : list Event),
    (predict_calls evs <= length attempts)%nat
    /\ fallback_entries evs = 0%nat
    /\ forallb is_llm_event evs = true
    /\ forall w : World, llm_calls w = i ->
         retry_loop env query attempts w
         = (Ret r, extend w evs (predict_calls evs)).
Proof.
  revert i. induction attempts as [|a attempts IH]; intros i.
  - exists issues_msg, []. repeat split; [unfold predict_calls; simpl; lia|].
    intros w _. simpl. now rewrite extend_nil.
  - destruct (llm_predict env i query) as [v|e] eqn:Hcall.
    + exists v, [EvPredict query]. repeat split; [unfold predict_calls; simpl; lia|].
      intros w <-. cbn [retry_loop]. unfold mbind at 1, M_bind at 1.
      now rewrite (retry_body_success _ _ v).
    + destruct ("429" in_str str e) eqn:H429.
      * destruct (IH (S i)) as (r & evs & Hle & Hfb & Hllm & Hrun).
        destruct (backoff_rounds_counts query [a]) as (Hp1 & Hf1 & _).
        exists r, (backoff_round query a ++ evs).
        assert (Hp : predict_calls (backoff_round query a ++ evs)
                     = S (predict_calls evs))
          by (rewrite predict_calls_app; reflexivity).
        repeat split.
        -- rewrite Hp. simpl. lia.
        -- rewrite fallback_entries_app, Hfb. reflexivity.
        -- rewrite forallb_app, Hllm. reflexivity.
        -- intros w <-. cbn [retry_loop]. unfold mbind at 1, M_bind at 1.
           rewrite retry_body_rate_limit by (now rewrite Hcall).
           rewrite Hrun by reflexivity.
           rewrite extend_extend, Hp. f_equal. f_equal. lia.
      * exists apology_msg, [EvPredict query; EvPrint (ApiErrorLine e)].
        repeat split; [unfold predict_calls; simpl; lia|].
        intros w <-. cbn [retry_loop]. unfold mbind at 1, M_bind at 1.
        now rewrite (retry_body_other_failure _ _ e).
Qed.

End Retry.

(** ** The fallback answerer *)

Lemma range_split (n : Z) (k : nat) :
  Z.of_nat k < n ->
  range n
  = range (Z.of_nat k)
      ++ Z.of_nat k :: seqZ (Z.succ (Z.of_nat k)) (Z.pred (n - Z.of_nat k)).
Proof.
  intros Hk. unfold range.
  replace n with (Z.of_nat k + (n - Z.of_nat k)) at 1 by lia.
  rewrite seqZ_app by lia. f_equal.
  now rewrite seqZ_cons by lia.
Qed.

Lemma length_range_nat (k : nat) : length (range (Z.of_nat k)) = k.
Proof. unfold range. rewrite length_seqZ. lia. Qed.

Section Fallback.

Variable env : Env.
Variable query : string.

Lemma call_llm_with_retry_unfold (max_retries : Z) (w : World) :
  call_llm_with_retry env query max_retries w
  = retry_loop env query (range max_retries) (extend w [EvFallback query] 0).
Proof. reflexivity. Qed.

(** [k] rate-limited failures and then the outcome of attempt [k], which
    is within the budget: the loop has reached attempt [k] with [k] rounds
    of back-off behind it. *)
Lemma call_llm_with_retry_reaches (max_retries : Z) (k : nat) (w : World) :
  Z.of_nat k < max_retries ->
  (forall j : nat, (j < k)%nat ->
     is_rate_limit (llm_predict env (j + llm_calls w) query) = true) ->
  call_llm_with_retry env query max_retries w
  = retry_loop env query
      (Z.of_nat k :: seqZ (Z.succ (Z.of_nat k)) (Z.pred (max_retries - Z.of_nat k)))
      (extend w (EvFallback query :: backoff_rounds query (range (Z.of_nat k))) k).
Proof.
  intros Hk Hlim.
  rewrite call_llm_with_retry_unfold, (range_split _ k Hk).
  rewrite retry_loop_backoff; rewrite length_range_nat.
  - rewrite extend_extend. f_equal. f_equal. lia.
  - intros j Hj. now apply Hlim.
Qed.

Lemma fallback_succeeds_after (max_retries : Z) (k : nat)
      (v : string) (w : World) :
  Z.of_nat k < max_retries ->
  (forall j : nat, (j < k)%nat ->
     is_rate_limit (llm_predict env (j + llm_calls w) query) = true) ->
  llm_predict env (k + llm_calls w) query = Ret v ->
  call_llm_with_retry env query max_retries w
  = (Ret v,
     extend w
       (EvFallback query :: backoff_rounds query (range (Z.of_nat k))
          ++ [EvPredict query])
       (S k)).
Proof.
  intros Hk Hlim Hv.
  rewrite (call_llm_with_retry_reaches _ k) by assumption.
  cbn [retry_loop]. unfold mbind at 1, M_bind at 1.
  rewrite (retry_body_success _ _ _ _ v) by exact Hv.
  unfold mret, M_ret. rewrite extend_extend. reflexivity.
Qed.

Lemma fallback_ends_on_other_failure (max_retries : Z) (k : nat)
      (e : Exn) (w : World) :
  Z.of_nat k < max_retries ->
  (forall j : nat, (j < k)%nat ->
     is_rate_limit (llm_predict env (j + llm_calls w) query) = true) ->
  llm_predict env (k + llm_calls w) query = Raise e ->
  "429" in_str str e = false ->
  call_llm_with_retry env query max_retries w
  = (Ret apology_msg,
     extend w
       (EvFallback query :: backoff_rounds query (range (Z.of_nat k))
          ++ [EvPredict query; EvPrint (ApiErrorLine e)])
       (S k)).
Proof.
  intros Hk Hlim He H429.
  rewrite (call_llm_with_retry_reaches _ k) by assumption.
  cbn [retry_loop]. unfold mbind at 1, M_bind at 1.
  rewrite (retry_body_other_failure _ _ _ _ e) by assumption.
  unfold mret, M_ret. rewrite extend_extend. reflexivity.
Qed.

Lemma call_llm_with_retry_exhausted (max_retries : Z) (w : World) :
  (forall j : nat, Z.of_nat j < max_retries ->
     is_rate_limit (llm_predict env (j + llm_calls w) query) = true) ->
  call_llm_with_retry env query max_retries w
  = (Ret issues_msg,
     extend w
       (EvFallback query :: backoff_rounds query (range max_retries))
       (Z.to_nat max_retries)).
Proof.
  intros Hlim.
  rewrite call_llm_with_retry_unfold.
  rewrite <- (app_nil_r (range max_retries)) at 1.
  rewrite retry_loop_backoff.
  - cbn [retry_loop]. unfold mret, M_ret. rewrite extend_extend.
    unfold range at 2. rewrite length_seqZ. f_equal. f_equal. lia.
  - intros j Hj. unfold range in Hj. rewrite length_seqZ in Hj.
    apply Hlim. lia.
Qed.

(** Whatever the stub does, the fallback answerer returns a string, after
    at most [max_retries] calls of [llm.predict]. *)
Lemma call_llm_with_retry_returns (max_retries : Z) (i : nat) :
  exists (r : string) (evs : list Event),
    (predict_calls evs <= Z.to_nat max_retries)%nat
    /\ fallback_entries evs = 0%nat
    /\ forallb is_llm_event evs = true
    /\ forall w : World, llm_calls w = i ->
         call_llm_with_retry env query max_retries w
         = (Ret r, extend w (EvFallback query :: evs) (predict_calls evs)).
Proof.
  destruct (retry_loop_returns env query (range max_retries) i)
    as (r & evs & Hle & Hfb & Hllm & Hrun).
  exists r, evs. unfold range in Hle. rewrite length_seqZ in Hle.
  repeat split; [exact Hle | exact Hfb | exact Hllm |].
  intros w Hw. rewrite call_llm_with_retry_unfold, Hrun by exact Hw.
  rewrite extend_extend. f_equal. f_equal. lia.
Qed.

End Fallback.

(** The fallback answerer does not look at the retriever. *)
Lemma retry_loop_with_retriever (env : Env)
    (r : Z -> string -> Outcome (list Doc)) (query : string) (attempts : list Z) :
  retry_loop (with_retriever env r) query attempts = retry_loop env query attempts.
Proof.
  induction attempts as [|a attempts IH]; simpl; [reflexivity | now rewrite IH].
Qed.

Lemma call_llm_with_retry_with_retriever (env : Env)
    (r : Z -> string -> Outcome (list Doc)) (query : string) (max_retries : Z) :
  call_llm_with_retry (with_retriever env r) query max_retries
  = call_llm_with_retry env query max_retries.
Proof.
  unfold call_llm_with_retry. now rewrite retry_loop_with_retriever.
Qed.

(** ** The answer composer *)

Lemma events_since_extend (w : World) (evs : list Event) (c : nat) :
  events_since w (extend w evs c) = evs.
Proof. unfold events_since, extend; simpl. apply drop_app_length. Qed.

Lemma events_since_remember (w : World) (evs : list Event) (c : nat) (turn : Turn) :
  events_since w (remember turn (extend w evs c)) = evs.
Proof. unfold events_since, remember, extend; simpl. apply drop_app_length. Qed.

Lemma events_since_after_chain (query : string) (w : World) (answer : string)
    (evs : list Event) (c : nat) :
  events_since w (extend (after_chain query w answer) evs c)
  = [EvRetrieve 5 query; EvChain query] ++ evs.
Proof.
  unfold events_since, after_chain, remember, extend; simpl.
  rewrite <- app_assoc. apply drop_app_length.
Qed.

(** The disclaimer test sees the same thing before and after [strip]: both
    phrases begin and end with a letter. *)
Lemma disclaims_strip (answer : string) :
  disclaims (PyStr.strip answer) = disclaims answer.
Proof.
  unfold disclaims.
  now rewrite PyStrFacts.lower_strip, !PyStrFacts.contains_strip.
Qed.

(** A chunk of no-break spaces has no text: line 89 is false for it. *)
Example has_text_no_break_space :
  has_text [ {| page_content := nbsp +:+ nbsp |} ] = false.
Proof. vm_compute. reflexivity. Qed.

Section Composer.

Variable env : Env.
Variable query : string.
Variable w : World.

Lemma get_answer_retrieval_failed (e : Exn) :
  retriever_invoke env 5 query = Raise e ->
  get_answer env query w
  = gated_fallback env query reject_ungrounded
      (extend w [EvRetrieve 5 query; EvPrint (RetrievalErrorLine e)] 0).
Proof.
  intros H. unfold get_answer, gated_fallback. run_monad. rewrite H.
  cbv beta iota. change (has_text []) with false. cbv beta iota.
  unfold extend, record; simpl. now rewrite <- !app_assoc.
Qed.

Lemma get_answer_retrieval_empty (docs : list Doc) :
  retriever_invoke env 5 query = Ret docs ->
  has_text docs = false ->
  get_answer env query w
  = gated_fallback env query reject_ungrounded (extend w [EvRetrieve 5 query] 0).
Proof.
  intros H Hdocs. unfold get_answer, gated_fallback. run_monad.
  rewrite H. cbv beta iota. now rewrite Hdocs.
Qed.

Lemma get_answer_generation_failed (docs : list Doc) (e : Exn) :
  retriever_invoke env 5 query = Ret docs ->
  has_text docs = true ->
  qa_chain_call env query (memory w) = Raise e ->
  get_answer env query w
  = gated_fallback env query reject_chain_error
      (extend w [EvRetrieve 5 query; EvChain query; EvPrint (ChainErrorLine e)] 0).
Proof.
  intros H Hdocs Hchain. unfold get_answer, gated_fallback. run_monad.
  rewrite H. cbv beta iota. rewrite Hdocs. cbv beta iota zeta.
  cbn [memory record]. rewrite Hchain.
  unfold extend, record; simpl. now rewrite <- !app_assoc.
Qed.

Lemma get_answer_grounded_clean (docs : list Doc) (answer : string) :
  retriever_invoke env 5 query = Ret docs ->
  has_text docs = true ->
  qa_chain_call env query (memory w) = Ret answer ->
  disclaims (PyStr.strip answer) = false ->
  get_answer env query w = (Ret (PyStr.strip answer), after_chain query w answer).
Proof.
  intros H Hdocs Hchain Hd. unfold get_answer. run_monad.
  rewrite H. cbv beta iota. rewrite Hdocs. cbv beta iota zeta.
  cbn [memory record]. rewrite Hchain, Hd.
  unfold after_chain, remember, extend, record; simpl.
  now rewrite <- !app_assoc.
Qed.

Lemma get_answer_disclaimed_rejected (docs : list Doc) (answer : string) :
  retriever_invoke env 5 query = Ret docs ->
  has_text docs = true ->
  qa_chain_call env query (memory w) = Ret answer ->
  disclaims (PyStr.strip answer) = true ->
  is_finance_tax_related query = false ->
  get_answer env query w = (Ret reject_disclaiming, after_chain query w answer).
Proof.
  intros H Hdocs Hchain Hd Hfin. unfold get_answer. run_monad.
  rewrite H. cbv beta iota. rewrite Hdocs. cbv beta iota zeta.
  cbn [memory record]. rewrite Hchain, Hd, Hfin.
  unfold after_chain, remember, extend, record; simpl.
  now rewrite <- !app_assoc.
Qed.

Lemma get_answer_disclaimed_augmented (docs : list Doc) (answer : string) :
  retriever_invoke env 5 query = Ret docs ->
  has_text docs = true ->
  qa_chain_call env query (memory w) = Ret answer ->
  disclaims (PyStr.strip answer) = true ->
  is_finance_tax_related query = true ->
  exists (llm_answer : string) (evs : list Event),
    call_llm_with_retry env query default_max_retries (after_chain query w answer)
    = (Ret llm_answer,
       extend (after_chain query w answer) (EvFallback query :: evs) (predict_calls evs))
    /\ fallback_entries evs = 0%nat
    /\ get_answer env query w
       = (Ret (PyStr.strip answer +:+ additional_info_label +:+ llm_answer),
          extend (after_chain query w answer) (EvFallback query :: evs) (predict_calls evs)).
Proof.
  intros H Hdocs Hchain Hd Hfin.
  destruct (call_llm_with_retry_returns env query default_max_retries
              (llm_calls (after_chain query w answer)))
    as (r & evs & _ & Hfb & _ & Hrun).
  specialize (Hrun (after_chain query w answer) eq_refl).
  exists r, evs. split; [exact Hrun|]. split; [exact Hfb|].
  unfold get_answer. run_monad.
  rewrite H. cbv beta iota. rewrite Hdocs. cbv beta iota zeta.
  cbn [memory record]. rewrite Hchain, Hd, Hfin.
  match goal with
  | |- context [call_llm_with_retry env query default_max_retries ?w1] =>
      replace w1 with (after_chain query w answer)
  end.
  - unfold mbind, M_bind in Hrun. now rewrite Hrun.
  - unfold after_chain, remember, extend, record; simpl.
    now rewrite <- !app_assoc.
Qed.

(** The fallback gate returns a string from any world. *)
Lemma gated_fallback_returns (rejection : string) (w1 : World) :
  exists (r : string) (evs : list Event),
    gated_fallback env query rejection w1 = (Ret r, extend w1 evs (predict_calls evs)).
Proof.
  unfold gated_fallback. destruct (is_finance_tax_related query).
  - destruct (call_llm_with_retry_returns env query default_max_retries
                (llm_calls w1)) as (r & evs & _ & _ & _ & Hrun).
    exists r, (EvFallback query :: evs). now apply Hrun.
  - exists rejection, []. unfold mret, M_ret. now rewrite extend_nil.
Qed.

(** The composer never raises: every failure of a collaborator is turned
    into a string. *)
Lemma get_answer_returns :
  exists (r : string) (w' : World), get_answer env query w = (Ret r, w').
Proof.
  destruct (retriever_invoke env 5 query) as [docs|e] eqn:H.
  - destruct (has_text docs) eqn:Hdocs.
    + destruct (qa_chain_call env query (memory w)) as [answer|e] eqn:Hchain.
      * destruct (disclaims (PyStr.strip answer)) eqn:Hd.
        -- destruct (is_finance_tax_related query) eqn:Hfin.
           ++ destruct (get_answer_disclaimed_augmented docs answer)
                as (r & evs & _ & _ & Hrun); try assumption.
              eauto.
           ++ rewrite (get_answer_disclaimed_rejected docs answer) by assumption.
              eauto.
        -- rewrite (get_answer_grounded_clean docs answer) by assumption.
           eauto.
      * rewrite (get_answer_generation_failed docs e) by assumption.
        destruct (gated_fallback_returns reject_chain_error
          (extend w [EvRetrieve 5 query; EvChain query; EvPrint (ChainErrorLine e)] 0))
          as (r & evs & ->). eauto.
    + rewrite (get_answer_retrieval_empty docs) by assumption.
      destruct (gated_fallback_returns reject_ungrounded
                  (extend w [EvRetrieve 5 query] 0)) as (r & evs & ->). eauto.
  - rewrite (get_answer_retrieval_failed e) by assumption.
    destruct (gated_fallback_returns reject_ungrounded
      (extend w [EvRetrieve 5 query; EvPrint (RetrievalErrorLine e)] 0))
      as (r & evs & ->). eauto.
Qed.

End Composer.

(** * The specification's properties *)

(** ** Domain filter *)

(** C4. For every query, [is_finance_tax_related] answers true exactly when
    the lower-cased query has one of the eighteen fixed keywords as a
    substring, and false exactly when it has none of them; the test is a
    function of the query alone. *)
Theorem is_finance_tax_related_iff (query : string) :
  keywords
  = [ "tax"; "gst"; "income"; "itr"; "capital gain"; "deduction"; "filing";
      "assessment"; "refund"; "audit"; "financial year"; "finance";
      "exemption"; "tds"; "income tax"; "taxable"; "section"; "investment" ]
  /\ (is_finance_tax_related query = true
      <-> exists kw : string,
            In kw keywords /\ PyStr.Substring kw (PyStr.lower query))
  /\ (is_finance_tax_related query = false
      <-> forall kw : string,
            In kw keywords -> ~ PyStr.Substring kw (PyStr.lower query)).
Proof.
  split; [reflexivity|].
  assert (Htrue : is_finance_tax_related query = true
                  <-> exists kw : string,
                        In kw keywords /\ PyStr.Substring kw (PyStr.lower query)).
  { unfold is_finance_tax_related. cbv zeta. rewrite existsb_exists.
    split; intros (kw & Hin & Hkw); exists kw; split; try assumption;
      now apply PyStrFacts.contains_iff. }
  split; [exact Htrue|].
  rewrite <- not_true_iff_false, Htrue. split.
  - intros Hnone kw Hin Hsub. apply Hnone. now exists kw.
  - intros Hnone (kw & Hin & Hsub). exact (Hnone kw Hin Hsub).
Qed.

(** ** Fallback answerer *)

(** C2. With the default budget of three attempts [call_llm_with_retry]
    never calls [llm.predict] more than three times.  After each failure
    whose text carries "429" it sleeps [2 ^ attempt] seconds, the attempts
    counted from 0, and goes on to the next attempt: [k < 3] such failures
    followed by a success give the success value after [k + 1] attempts and
    the sleeps [2^0 .. 2^(k-1)].  In particular two such failures and then a
    success give the success value with the sleeps 1 and 2 and three
    attempts, and a stub that fails with "429" every time gives the fixed
    "currently experiencing issues" string after three attempts. *)
Theorem call_llm_with_retry_rate_limited (env : Env) (query : string) (w : World) :
  (exists (r : string) (w' : World),
     call_llm_with_retry env query default_max_retries w = (Ret r, w')
     /\ (predict_calls (events_since w w') <= 3)%nat)
  /\ (forall (k : nat) (v : string),
        (k < 3)%nat ->
        (forall j : nat, (j < k)%nat ->
           is_rate_limit (llm_predict env (j + llm_calls w) query) = true) ->
        llm_predict env (k + llm_calls w) query = Ret v ->
        exists w' : World,
          call_llm_with_retry env query default_max_retries w = (Ret v, w')
          /\ events_since w w'
             = EvFallback query :: backoff_rounds query (range (Z.of_nat k))
                 ++ [EvPredict query]
          /\ sleeps (events_since w w') = map (Z.pow 2) (range (Z.of_nat k))
          /\ predict_calls (events_since w w') = S k)
  /\ (forall v : string,
        is_rate_limit (llm_predict env (0 + llm_calls w) query) = true ->
        is_rate_limit (llm_predict env (1 + llm_calls w) query) = true ->
        llm_predict env (2 + llm_calls w) query = Ret v ->
        exists w' : World,
          call_llm_with_retry env query default_max_retries w = (Ret v, w')
          /\ sleeps (events_since w w') = [1; 2]
          /\ predict_calls (events_since w w') = 3%nat)
  /\ ((forall j : nat, (j < 3)%nat ->
         is_rate_limit (llm_predict env (j + llm_calls w) query) = true) ->
      exists w' : World,
        call_llm_with_retry env query default_max_retries w = (Ret issues_msg, w')
        /\ "currently experiencing issues" in_str issues_msg = true
        /\ sleeps (events_since w w') = [1; 2; 4]
        /\ predict_calls (events_since w w') = 3%nat).
Proof.
  assert (Hafter : forall (k : nat) (v : string),
    (k < 3)%nat ->
    (forall j : nat, (j < k)%nat ->
       is_rate_limit (llm_predict env (j + llm_calls w) query) = true) ->
    llm_predict env (k + llm_calls w) query = Ret v ->
    exists w' : World,
      call_llm_with_retry env query default_max_retries w = (Ret v, w')
      /\ events_since w w'
         = EvFallback query :: backoff_rounds query (range (Z.of_nat k))
             ++ [EvPredict query]
      /\ sleeps (events_since w w') = map (Z.pow 2) (range (Z.of_nat k))
      /\ predict_calls (events_since w w') = S k).
  { intros k v Hk Hlim Hv.
    destruct (backoff_rounds_counts query (range (Z.of_nat k))) as (Hp & _ & Hs).
    eexists. split.
    - apply (fallback_succeeds_after env query _ k v w);
        [unfold default_max_retries; lia | exact Hlim | exact Hv].
    - rewrite events_since_extend. split; [reflexivity|]. split.
      + rewrite sleeps_fallback_run by reflexivity. exact Hs.
      + rewrite predict_calls_fallback_run, Hp, length_range_nat.
        unfold predict_calls; simpl; lia. }
  split; [|split; [exact Hafter|split]].
  - destruct (call_llm_with_retry_returns env query default_max_retries (llm_calls w))
      as (r & evs & Hle & _ & _ & Hrun).
    exists r. eexists. split; [apply Hrun; reflexivity|].
    rewrite events_since_extend.
    change (predict_calls (EvFallback query :: evs)) with (predict_calls evs).
    exact Hle.
  - intros v H0 H1 H2.
    destruct (Hafter 2%nat v) as (w' & Hrun & _ & Hs & Hp); [lia| |exact H2|].
    + intros [|[|j]] Hj; [exact H0 | exact H1 | lia].
    + exists w'. repeat split; assumption.
  - intros Hlim. eexists. split.
    + apply call_llm_with_retry_exhausted. intros j Hj. apply Hlim.
      unfold default_max_retries in Hj. lia.
    + rewrite events_since_extend. repeat split; reflexivity.
Qed.

Lemma call_llm_with_retry_rate_limited_witness :
  (exists w' : World,
     call_llm_with_retry stub_429_twice "What is GST?" default_max_retries initial_world
     = (Ret "GST is a tax on goods and services.", w')
     /\ sleeps (events_since initial_world w') = [1; 2]
     /\ predict_calls (events_since initial_world w') = 3%nat)
  /\ (exists w' : World,
        call_llm_with_retry stub_429_always "What is GST?" default_max_retries initial_world
        = (Ret issues_msg, w')
        /\ "currently experiencing issues" in_str issues_msg = true
        /\ sleeps (events_since initial_world w') = [1; 2; 4]
        /\ predict_calls (events_since initial_world w') = 3%nat).
Proof.
  split.
  - apply (proj1 (proj2 (proj2
      (call_llm_with_retry_rate_limited stub_429_twice "What is GST?" initial_world))));
      reflexivity.
  - apply (proj2 (proj2 (proj2
      (call_llm_with_retry_rate_limited stub_429_always "What is GST?" initial_world)))).
    intros j _. reflexivity.
Defined.

(** C5. Whatever the stub does and whatever the budget, [call_llm_with_retry]
    returns a string and raises nothing.  A failure whose text does not
    carry "429" ends the loop at once with the fixed apology: when it is the
    first failure there has been one call of [llm.predict], no sleep and no
    retry; when [k] rate-limited failures came before it there have been
    [k + 1] calls and only the [k] sleeps of those earlier failures. *)
Theorem call_llm_with_retry_other_failure (env : Env) (query : string) (w : World) :
  (forall max_retries : Z,
     exists (r : string) (w' : World),
       call_llm_with_retry env query max_retries w = (Ret r, w'))
  /\ (forall (max_retries : Z) (e : Exn),
        0 < max_retries ->
        llm_predict env (llm_calls w) query = Raise e ->
        "429" in_str str e = false ->
        exists w' : World,
          call_llm_with_retry env query max_retries w = (Ret apology_msg, w')
          /\ events_since w w'
             = [EvFallback query; EvPredict query; EvPrint (ApiErrorLine e)]
          /\ predict_calls (events_since w w') = 1%nat
          /\ sleeps (events_since w w') = [])
  /\ (forall (max_retries : Z) (k : nat) (e : Exn),
        Z.of_nat k < max_retries ->
        (forall j : nat, (j < k)%nat ->
           is_rate_limit (llm_predict env (j + llm_calls w) query) = true) ->
        llm_predict env (k + llm_calls w) query = Raise e ->
        "429" in_str str e = false ->
        exists w' : World,
          call_llm_with_retry env query max_retries w = (Ret apology_msg, w')
          /\ predict_calls (events_since w w') = S k
          /\ sleeps (events_since w w') = map (Z.pow 2) (range (Z.of_nat k))).
Proof.
  split; [|split].
  - intros max_retries.
    destruct (call_llm_with_retry_returns env query max_retries (llm_calls w))
      as (r & evs & _ & _ & _ & Hrun).
    exists r. eexists. now apply Hrun.
  - intros max_retries e Hpos He H429. eexists. split.
    + apply (fallback_ends_on_other_failure env query _ 0%nat e w);
        [exact Hpos | intros j Hj; lia | exact He | exact H429].
    + rewrite events_since_extend. repeat split; reflexivity.
  - intros max_retries k e Hk Hlim He H429.
    destruct (backoff_rounds_counts query (range (Z.of_nat k))) as (Hp & _ & Hs).
    eexists. split.
    + apply (fallback_ends_on_other_failure env query _ k e w);
        assumption.
    + rewrite events_since_extend. split.
      * rewrite predict_calls_fallback_run, Hp, length_range_nat.
        unfold predict_calls; simpl; lia.
      * rewrite sleeps_fallback_run by reflexivity. exact Hs.
Qed.

Lemma call_llm_with_retry_other_failure_witness :
  exists w' : World,
    call_llm_with_retry stub_unauthorized "What is GST?" default_max_retries initial_world
    = (Ret apology_msg, w')
    /\ events_since initial_world w'
       = [EvFallback "What is GST?"; EvPredict "What is GST?";
          EvPrint (ApiErrorLine
                     (Exception "Error code: 401 - Incorrect API key provided"))]
    /\ predict_calls (events_since initial_world w') = 1%nat
    /\ sleeps (events_since initial_world w') = [].
Proof.
  apply (proj1 (proj2
    (call_llm_with_retry_other_failure stub_unauthorized "What is GST?" initial_world))
    default_max_retries);
    reflexivity.
Defined.

(** ** Answer composer *)

(** C1. For a query the domain filter rejects, whenever the fallback path is
    reached (the grounded answer disclaims, retrieval failed, retrieval was
    empty, or generation failed) [get_answer] returns the fixed rejection
    message of that branch, which says "only answer finance or tax-related
    queries", and the fallback answerer is not entered: no entry into
    [call_llm_with_retry] and no call of [llm.predict] is added to the
    trace. *)
Theorem get_answer_rejects_non_finance (env : Env) (query : string) (w : World)
    (reason : FallbackReason) :
  is_finance_tax_related query = false ->
  reaches_fallback env query w reason ->
  exists w' : World,
    get_answer env query w = (Ret (rejection_of reason), w')
    /\ "only answer finance or tax-related queries" in_str rejection_of reason = true
    /\ fallback_entries (events_since w w') = 0%nat
    /\ predict_calls (events_since w w') = 0%nat
    /\ llm_calls w' = llm_calls w.
Proof.
  intros Hfin Hreach. destruct reason as [e|docs|docs e|docs answer]; simpl in Hreach.
  - rewrite (get_answer_retrieval_failed env query w e Hreach).
    unfold gated_fallback. rewrite Hfin. eexists. split; [reflexivity|].
    rewrite events_since_extend. repeat split; reflexivity.
  - destruct Hreach as (Hdocs & Htext).
    rewrite (get_answer_retrieval_empty env query w docs Hdocs Htext).
    unfold gated_fallback. rewrite Hfin. eexists. split; [reflexivity|].
    rewrite events_since_extend. repeat split; reflexivity.
  - destruct Hreach as (Hdocs & Htext & Hchain).
    rewrite (get_answer_generation_failed env query w docs e Hdocs Htext Hchain).
    unfold gated_fallback. rewrite Hfin. eexists. split; [reflexivity|].
    rewrite events_since_extend. repeat split; reflexivity.
  - destruct Hreach as (Hdocs & Htext & Hchain & Hd).
    rewrite <- disclaims_strip in Hd.
    rewrite (get_answer_disclaimed_rejected env query w docs answer
               Hdocs Htext Hchain Hd Hfin).
    eexists. split; [reflexivity|].
    unfold after_chain. rewrite events_since_remember. repeat split; reflexivity.
Qed.

Lemma get_answer_rejects_non_finance_witness :
  is_finance_tax_related "What's the weather?" = false
  /\ exists w' : World,
       get_answer env_disclaiming "What's the weather?" initial_world
       = (Ret reject_disclaiming, w')
       /\ "only answer finance or tax-related queries" in_str reject_disclaiming = true
       /\ fallback_entries (events_since initial_world w') = 0%nat
       /\ predict_calls (events_since initial_world w') = 0%nat
       /\ llm_calls w' = llm_calls initial_world.
Proof.
  split; [reflexivity|].
  apply (get_answer_rejects_non_finance env_disclaiming "What's the weather?"
           initial_world
           (Disclaimed [ {| page_content := "Section 80C: deductions on investments." |} ]
                       " The provided context does NOT mention that. "));
    [reflexivity | repeat split; reflexivity].
Defined.

(** C6. When the retriever call raises, [get_answer] does not let the
    exception through: it logs it, goes on with no chunks and takes the
    domain-gated branch of the ungrounded case.  The chain is not invoked
    and the memory is left as it was, and the answer is the one the same
    request gets when the retriever returns an empty list. *)
Theorem get_answer_swallows_retrieval_failure (env : Env) (query : string)
    (w : World) (e : Exn) :
  retriever_invoke env 5 query = Raise e ->
  let w1 := extend w [EvRetrieve 5 query; EvPrint (RetrievalErrorLine e)] 0 in
  get_answer env query w
  = (if is_finance_tax_related query
     then call_llm_with_retry env query default_max_retries w1
     else (Ret reject_ungrounded, w1))
  /\ (exists (r : string) (w' : World),
        get_answer env query w = (Ret r, w')
        /\ memory w' = memory w
        /\ ~ In (EvChain query) (events_since w w'))
  /\ fst (get_answer env query w)
     = fst (get_answer (with_retriever env (fun _ _ => Ret [])) query w).
Proof.
  intros Hfail w1.
  pose proof (get_answer_retrieval_failed env query w e Hfail) as Hrun.
  fold w1 in Hrun. unfold gated_fallback in Hrun.
  split; [|split].
  - rewrite Hrun. now destruct (is_finance_tax_related query).
  - rewrite Hrun. destruct (is_finance_tax_related query).
    + destruct (call_llm_with_retry_returns env query default_max_retries
                  (llm_calls w1)) as (r & evs & _ & _ & Hllm & Hcall).
      rewrite (Hcall w1 eq_refl). exists r. eexists. split; [reflexivity|].
      unfold w1. rewrite extend_extend, events_since_extend.
      split; [reflexivity|].
      intros Hin. simpl in Hin.
      destruct Hin as [Hin|[Hin|[Hin|Hin]]]; try discriminate.
      exact (llm_events_no_chain query evs Hllm Hin).
    + exists reject_ungrounded, w1. split; [reflexivity|].
      unfold w1. rewrite events_since_extend. split; [reflexivity|].
      simpl. intros [Hin|[Hin|[]]]; discriminate.
  - rewrite Hrun.
    rewrite (get_answer_retrieval_empty (with_retriever env (fun _ _ => Ret []))
               query w [] eq_refl eq_refl).
    unfold gated_fallback. destruct (is_finance_tax_related query); [|reflexivity].
    destruct (call_llm_with_retry_returns env query default_max_retries
                (llm_calls w)) as (r & evs & _ & _ & _ & Hcall).
    rewrite (Hcall w1 eq_refl).
    rewrite call_llm_with_retry_with_retriever.
    now rewrite (Hcall (extend w [EvRetrieve 5 query] 0) eq_refl).
Qed.

Lemma get_answer_swallows_retrieval_failure_witness :
  exists w' : World,
    get_answer env_index_down "What is the deduction limit?" initial_world
    = (Ret "Section 80C allows deductions up to 1.5 lakh.", w')
    /\ memory w' = []
    /\ ~ In (EvChain "What is the deduction limit?") (events_since initial_world w').
Proof.
  destruct (get_answer_swallows_retrieval_failure env_index_down
              "What is the deduction limit?" initial_world
              (Exception "index unavailable") eq_refl)
    as (Hrun & _ & _).
  eexists. split; [exact Hrun|]. split; [reflexivity|].
  vm_compute. intros [H|[H|[H|[H|[]]]]]; discriminate.
Defined.

(** C3, as the code has it.  For a query the domain filter accepts, when the
    chain's answer holds "not mention" or "does not contain" (in any case
    of letters; it is then not empty) [get_answer] enters the fallback
    answerer exactly once and returns the grounded answer, stripped of
    leading and trailing white space, followed by the "Additional info"
    label and the fallback answer. *)
Theorem get_answer_augments_disclaiming (env : Env) (query : string) (w : World)
    (docs : list Doc) (answer : string) :
  is_finance_tax_related query = true ->
  retriever_invoke env 5 query = Ret docs ->
  has_text docs = true ->
  qa_chain_call env query (memory w) = Ret answer ->
  disclaims answer = true ->
  exists (llm_answer : string) (w' : World),
    call_llm_with_retry env query default_max_retries (after_chain query w answer)
    = (Ret llm_answer, w')
    /\ get_answer env query w
       = (Ret (PyStr.strip answer +:+ additional_info_label +:+ llm_answer), w')
    /\ "Additional info" in_str additional_info_label = true
    /\ fallback_entries (events_since w w') = 1%nat.
Proof.
  intros Hfin Hdocs Htext Hchain Hd. rewrite <- disclaims_strip in Hd.
  destruct (get_answer_disclaimed_augmented env query w docs answer
              Hdocs Htext Hchain Hd Hfin) as (llm_answer & evs & Hcall & Hfb & Hrun).
  exists llm_answer. eexists. split; [exact Hcall|]. split; [exact Hrun|].
  split; [reflexivity|].
  rewrite events_since_after_chain.
  change ([EvRetrieve 5 query; EvChain query] ++ EvFallback query :: evs)
    with ([EvRetrieve 5 query; EvChain query; EvFallback query] ++ evs).
  rewrite fallback_entries_app, Hfb. reflexivity.
Qed.

Lemma get_answer_augments_disclaiming_witness :
  exists w' : World,
    get_answer env_disclaiming "What is the GST rate?" initial_world
    = (Ret ("The provided context does NOT mention that."
            +:+ additional_info_label +:+ "Here is what I know."), w')
    /\ fallback_entries (events_since initial_world w') = 1%nat.
Proof.
  destruct (get_answer_augments_disclaiming env_disclaiming "What is the GST rate?"
              initial_world
              [ {| page_content := "Section 80C: deductions on investments." |} ]
              " The provided context does NOT mention that. "
              eq_refl eq_refl eq_refl eq_refl eq_refl)
    as (llm_answer & w' & Hcall & Hrun & _ & Hfb).
  exists w'. split; [|exact Hfb].
  rewrite Hrun. injection Hcall as <- _. reflexivity.
Defined.

(** C3, as it is worded, fails where the chain's answer has white space
    around it: what comes before the label is the stripped text, not the
    answer the chain gave. *)
Lemma get_answer_augments_disclaiming_counterexample :
  is_finance_tax_related "What is the GST rate?" = true
  /\ qa_chain_call env_disclaiming "What is the GST rate?" (memory initial_world)
     = Ret " The provided context does NOT mention that. "
  /\ disclaims " The provided context does NOT mention that. " = true
  /\ fst (get_answer env_disclaiming "What is the GST rate?" initial_world)
     = Ret ("The provided context does NOT mention that."
            +:+ additional_info_label +:+ "Here is what I know.")
  /\ (forall llm_answer : string,
        fst (get_answer env_disclaiming "What is the GST rate?" initial_world)
        <> Ret (" The provided context does NOT mention that. "
                +:+ additional_info_label +:+ llm_answer)).
Proof.
  repeat split; try reflexivity.
  intros llm_answer H. vm_compute in H. discriminate.
Qed.

(** C7, as the code has it.  When retrieval returns a chunk with text and
    the chain returns an answer holding neither disclaimer phrase,
    [get_answer] returns that answer stripped of leading and trailing white
    space; it adds the retriever and chain calls to the trace and nothing
    else, so the fallback answerer is not entered and [llm.predict] is not
    called, and no rejection is produced. *)
Theorem get_answer_returns_clean_grounded (env : Env) (query : string) (w : World)
    (docs : list Doc) (answer : string) :
  retriever_invoke env 5 query = Ret docs ->
  has_text docs = true ->
  qa_chain_call env query (memory w) = Ret answer ->
  disclaims answer = false ->
  exists w' : World,
    get_answer env query w = (Ret (PyStr.strip answer), w')
    /\ events_since w w' = [EvRetrieve 5 query; EvChain query]
    /\ fallback_entries (events_since w w') = 0%nat
    /\ predict_calls (events_since w w') = 0%nat.
Proof.
  intros Hdocs Htext Hchain Hd. rewrite <- disclaims_strip in Hd.
  rewrite (get_answer_grounded_clean env query w docs answer Hdocs Htext Hchain Hd).
  eexists. split; [reflexivity|].
  unfold after_chain. rewrite events_since_remember. repeat split; reflexivity.
Qed.

Lemma get_answer_returns_clean_grounded_witness :
  exists w' : World,
    get_answer env_grounded "What does 80C allow?" initial_world
    = (Ret "Section 80C allows deductions up to 1.5 lakh.", w')
    /\ events_since initial_world w'
       = [EvRetrieve 5 "What does 80C allow?"; EvChain "What does 80C allow?"]
    /\ fallback_entries (events_since initial_world w') = 0%nat
    /\ predict_calls (events_since initial_world w') = 0%nat.
Proof.
  apply (get_answer_returns_clean_grounded env_grounded "What does 80C allow?"
           initial_world
           [ {| page_content := "Section 80C: deductions on investments." |} ]
           " Section 80C allows deductions up to 1.5 lakh. ");
    reflexivity.
Defined.

(** C7, as it is worded, fails where the chain's answer has white space
    around it: the composer returns the stripped text, not the answer
    unchanged. *)
Lemma get_answer_returns_clean_grounded_counterexample :
  retriever_invoke env_grounded 5 "What does 80C allow?"
  = Ret [ {| page_content := "Section 80C: deductions on investments." |} ]
  /\ qa_chain_call env_grounded "What does 80C allow?" (memory initial_world)
     = Ret " Section 80C allows deductions up to 1.5 lakh. "
  /\ disclaims " Section 80C allows deductions up to 1.5 lakh. " = false
  /\ fst (get_answer env_grounded "What does 80C allow?" initial_world)
     = Ret "Section 80C allows deductions up to 1.5 lakh."
  /\ fst (get_answer env_grounded "What does 80C allow?" initial_world)
     <> Ret " Section 80C allows deductions up to 1.5 lakh. ".
Proof.
  repeat split; try reflexivity.
  vm_compute. discriminate.
Qed.

Lemma get_answer_saves_turn (env : Env) (query : string) (w : World)
    (docs : list Doc) (answer : string) :
  retriever_invoke env 5 query = Ret docs ->
  has_text docs = true ->
  qa_chain_call env query (memory w) = Ret answer ->
  exists (r : string) (w' : World),
    get_answer env query w = (Ret r, w')
    /\ memory w' = memory w ++ [(query, answer)].
Proof.
  intros Hdocs Htext Hchain.
  destruct (disclaims (PyStr.strip answer)) eqn:Hd.
  - destruct (is_finance_tax_related query) eqn:Hfin.
    + destruct (get_answer_disclaimed_augmented env query w docs answer
                  Hdocs Htext Hchain Hd Hfin) as (r & evs & _ & _ & Hrun).
      rewrite Hrun. eexists. eexists. split; reflexivity.
    + rewrite (get_answer_disclaimed_rejected env query w docs answer
                 Hdocs Htext Hchain Hd Hfin).
      eexists. eexists. split; reflexivity.
  - rewrite (get_answer_grounded_clean env query w docs answer
               Hdocs Htext Hchain Hd).
    eexists. eexists. split; reflexivity.
Qed.

(** C9, as the code has it.  When the chain runs and returns a disclaiming
    answer for a query the domain filter rejects, [get_answer] returns the
    rejection and the memory has already got the new turn of the query and
    the chain's answer; more generally the turn is appended whenever the
    chain returns an answer.  The memory is left as it was on the paths
    where no grounded answer is produced (a failed retrieval, a retrieval
    with no chunk of text, a chain that is run and raises), and only on
    those: a call that leaves the memory as it was took one of the three. *)
Theorem get_answer_memory_effect (env : Env) (query : string) (w : World) :
  (forall (docs : list Doc) (answer : string),
     is_finance_tax_related query = false ->
     retriever_invoke env 5 query = Ret docs ->
     has_text docs = true ->
     qa_chain_call env query (memory w) = Ret answer ->
     disclaims answer = true ->
     exists w' : World,
       get_answer env query w = (Ret reject_disclaiming, w')
       /\ memory w' = memory w ++ [(query, answer)])
  /\ (forall (docs : list Doc) (answer : string),
        retriever_invoke env 5 query = Ret docs ->
        has_text docs = true ->
        qa_chain_call env query (memory w) = Ret answer ->
        exists (r : string) (w' : World),
          get_answer env query w = (Ret r, w')
          /\ memory w' = memory w ++ [(query, answer)])
  /\ ((exists e : Exn, retriever_invoke env 5 query = Raise e)
      \/ (exists docs : list Doc,
            retriever_invoke env 5 query = Ret docs /\ has_text docs = false)
      \/ (exists (docs : list Doc) (e : Exn),
            retriever_invoke env 5 query = Ret docs /\ has_text docs = true
            /\ qa_chain_call env query (memory w) = Raise e) ->
      exists (r : string) (w' : World),
        get_answer env query w = (Ret r, w') /\ memory w' = memory w)
  /\ (forall (r : string) (w' : World),
        get_answer env query w = (Ret r, w') ->
        memory w' = memory w ->
        (exists e : Exn, retriever_invoke env 5 query = Raise e)
        \/ (exists docs : list Doc,
              retriever_invoke env 5 query = Ret docs /\ has_text docs = false)
        \/ (exists (docs : list Doc) (e : Exn),
              retriever_invoke env 5 query = Ret docs /\ has_text docs = true
              /\ qa_chain_call env query (memory w) = Raise e)).
Proof.
  split; [|split; [|split]].
  - intros docs answer Hfin Hdocs Htext Hchain Hd.
    rewrite <- disclaims_strip in Hd.
    rewrite (get_answer_disclaimed_rejected env query w docs answer
               Hdocs Htext Hchain Hd Hfin).
    eexists. split; reflexivity.
  - intros docs answer. apply get_answer_saves_turn.
  - intros [[e Hfail]|[(docs & Hdocs & Htext)|(docs & e & Hdocs & Htext & Hchain)]].
    + rewrite (get_answer_retrieval_failed env query w e Hfail).
      destruct (gated_fallback_returns env query reject_ungrounded
        (extend w [EvRetrieve 5 query; EvPrint (RetrievalErrorLine e)] 0))
        as (r & evs & ->).
      eexists. eexists. split; reflexivity.
    + rewrite (get_answer_retrieval_empty env query w docs Hdocs Htext).
      destruct (gated_fallback_returns env query reject_ungrounded
        (extend w [EvRetrieve 5 query] 0)) as (r & evs & ->).
      eexists. eexists. split; reflexivity.
    + rewrite (get_answer_generation_failed env query w docs e Hdocs Htext Hchain).
      destruct (gated_fallback_returns env query reject_chain_error
        (extend w [EvRetrieve 5 query; EvChain query; EvPrint (ChainErrorLine e)] 0))
        as (r & evs & ->).
      eexists. eexists. split; reflexivity.
  - intros r w' Hrun Hmem.
    destruct (retriever_invoke env 5 query) as [docs|e] eqn:Hdocs;
      [|left; now exists e].
    destruct (has_text docs) eqn:Htext; [|right; left; now exists docs].
    destruct (qa_chain_call env query (memory w)) as [answer|e] eqn:Hchain;
      [|right; right; now exists docs, e].
    exfalso.
    destruct (get_answer_saves_turn env query w docs answer Hdocs Htext Hchain)
      as (r2 & w2 & Hrun2 & Hmem2).
    rewrite Hrun in Hrun2. apply (f_equal snd) in Hrun2. cbn [snd] in Hrun2.
    subst w2. rewrite Hmem in Hmem2.
    apply (f_equal (@List.length Turn)) in Hmem2.
    rewrite length_app in Hmem2. cbn [List.length] in Hmem2. lia.
Qed.

Lemma get_answer_memory_effect_witness :
  is_finance_tax_related "What's the weather?" = false
  /\ exists w' : World,
       get_answer env_disclaiming "What's the weather?" initial_world
       = (Ret reject_disclaiming, w')
       /\ memory w'
          = memory initial_world
              ++ [("What's the weather?", " The provided context does NOT mention that. ")].
Proof.
  split; [reflexivity|].
  apply (proj1 (get_answer_memory_effect env_disclaiming "What's the weather?"
                  initial_world)
           [ {| page_content := "Section 80C: deductions on investments." |} ]
           " The provided context does NOT mention that. ");
    reflexivity.
Defined.

(** C9, as it is worded, fails on its last clause: when the chain is invoked
    and raises, retrieval has neither failed nor been empty, the grounded
    generation has been run, and the memory is unchanged all the same. *)
Lemma get_answer_memory_effect_counterexample :
  retriever_invoke env_chain_down 5 "What's the weather?"
  = Ret [ {| page_content := "Section 80C: deductions on investments." |} ]
  /\ has_text [ {| page_content := "Section 80C: deductions on investments." |} ] = true
  /\ In (EvChain "What's the weather?")
        (trace (snd (get_answer env_chain_down "What's the weather?" initial_world)))
  /\ fst (get_answer env_chain_down "What's the weather?" initial_world)
     = Ret reject_chain_error
  /\ memory (snd (get_answer env_chain_down "What's the weather?" initial_world))
     = memory initial_world.
Proof.
  split; [vm_compute; reflexivity|].
  split; [vm_compute; reflexivity|].
  split; [vm_compute; right; left; reflexivity|].
  split; vm_compute; reflexivity.
Qed.

(** ** HTTP endpoint *)

Lemma chat_no_message (env : Env) (fields : gmap string string) (w : World) :
  fields !! "message" = None \/ fields !! "message" = Some EmptyString ->
  chat env {| get_json := Ret (JObject fields) |} w = (Ret no_message_response, w).
Proof.
  intros Hmsg. unfold chat, data_get. run_monad. cbn [get_json].
  now destruct Hmsg as [-> | ->].
Qed.

Lemma chat_message (env : Env) (fields : gmap string string) (w : World)
    (message : string) :
  fields !! "message" = Some message ->
  message <> EmptyString ->
  exists (answer : string) (w' : World),
    get_answer env message w = (Ret answer, w')
    /\ chat env {| get_json := Ret (JObject fields) |} w
       = (Ret (answer_response answer), w').
Proof.
  intros Hmsg Hne.
  destruct (get_answer_returns env message w) as (answer & w' & Hrun).
  exists answer, w'. split; [exact Hrun|].
  unfold chat, data_get. run_monad. cbn [get_json]. rewrite Hmsg.
  destruct message as [|c rest]; [congruence|].
  unfold mbind, M_bind in Hrun. now rewrite Hrun.
Qed.

(** C8. A POST to [/chat] whose JSON body is an object with no "message"
    field, or with an empty one, gets status 400 and the body
    [{"error": "No message provided."}], and nothing else happens.  A
    request with a non-empty "message" has [get_answer] run on that message,
    which returns a string, and gets status 200 and the body
    [{"answer": <that string>, "source": "OpenAI/LangChain"}]. *)
Theorem chat_contract (env : Env) (fields : gmap string string) (w : World) :
  (fields !! "message" = None \/ fields !! "message" = Some EmptyString ->
   chat env {| get_json := Ret (JObject fields) |} w
   = (Ret {| status := 400; body := {[ "error" := "No message provided." ]} |}, w))
  /\ (forall message : string,
        fields !! "message" = Some message ->
        message <> EmptyString ->
        exists (answer : string) (w' : World),
          get_answer env message w = (Ret answer, w')
          /\ chat env {| get_json := Ret (JObject fields) |} w
             = (Ret {| status := 200;
                       body := {[ "answer" := answer;
                                  "source" := "OpenAI/LangChain" ]} |}, w')).
Proof.
  split.
  - apply chat_no_message.
  - apply chat_message.
Qed.

Lemma chat_contract_witness :
  chat env_grounded {| get_json := Ret (JObject ∅) |} initial_world
  = (Ret {| status := 400; body := {[ "error" := "No message provided." ]} |},
     initial_world)
  /\ exists (answer : string) (w' : World),
       get_answer env_grounded "What does 80C allow?" initial_world = (Ret answer, w')
       /\ chat env_grounded
            {| get_json := Ret (JObject {[ "message" := "What does 80C allow?" ]}) |}
            initial_world
          = (Ret {| status := 200;
                    body := {[ "answer" := answer;
                               "source" := "OpenAI/LangChain" ]} |}, w').
Proof.
  split.
  - apply (proj1 (chat_contract env_grounded ∅ initial_world)).
    left. reflexivity.
  - apply (proj2 (chat_contract env_grounded
                    {[ "message" := "What does 80C allow?" ]} initial_world)).
    + apply lookup_singleton_eq.
    + discriminate.
Defined.

(** C10. When Flask cannot read a JSON body (no body, or text that does not
    parse) the exception [get_json] raises is caught by the handler's
    [except Exception]: the endpoint logs it and answers with status 500 and
    the body [{"error": str(e)}], not with the 400 of a missing message, and
    [get_answer] is not run.  The same happens when [get_json] hands back
    [None] or a JSON value that is not an object: reading "message" from it
    raises, and the answer is again 500. *)
Theorem chat_unreadable_body (env : Env) (w : World) (e : Exn) :
  chat env {| get_json := Raise e |} w
  = (Ret {| status := 500; body := {[ "error" := str e ]} |},
     extend w [EvPrint (ChatErrorLine e)] 0)
  /\ status (error_response e) <> status no_message_response
  /\ chat env {| get_json := Ret JNull |} w
     = (Ret {| status := 500;
               body := {[ "error" := "'NoneType' object has no attribute 'get'" ]} |},
        extend w [EvPrint (ChatErrorLine (no_get_error "NoneType"))] 0)
  /\ (forall type_name : string,
        chat env {| get_json := Ret (JOther type_name) |} w
        = (Ret (error_response (no_get_error type_name)),
           extend w [EvPrint (ChatErrorLine (no_get_error type_name))] 0)).
Proof.
  split; [reflexivity|]. split; [discriminate|]. split; [reflexivity|].
  intros type_name. reflexivity.
Qed.

(** * Further properties of the request path *)

(** ** The back-off schedule *)

Lemma seqZ_prefix (done rest : list Z) (m n : Z) :
  seqZ m n = done ++ rest -> done = seqZ m (Z.of_nat (length done)).
Proof.
  revert m n. induction done as [|a done IH]; intros m n H; [reflexivity|].
  destruct (Z_lt_le_dec 0 n) as [Hn|Hn].
  - rewrite seqZ_cons in H by exact Hn. simpl in H. injection H as <- H.
    rewrite (seqZ_cons m) by (simpl; lia). f_equal.
    rewrite (IH _ _ H) at 1. f_equal. simpl. lia.
  - rewrite seqZ_nil in H by exact Hn. discriminate.
Qed.

Lemma total_sleep_powers (k : nat) :
  fold_right Z.add 0 (map (Z.pow 2) (range (Z.of_nat k))) = 2 ^ Z.of_nat k - 1.
Proof.
  unfold range. induction k as [|k IH]; [reflexivity|].
  assert (Hshift : forall (l : list Z) (x : Z),
            fold_right Z.add x l = fold_right Z.add 0 l + x).
  { induction l as [|y l IHl]; intros x; cbn [fold_right];
      [lia | rewrite IHl; lia]. }
  rewrite seqZ_S, map_app, fold_right_app. cbn [map fold_right].
  rewrite Hshift, IH, Z.add_0_l, Z.add_0_r.
  rewrite Nat2Z.inj_succ, Z.pow_succ_r by lia. lia.
Qed.

(** Whatever the stub does, the sleeps of the loop are those of the
    attempts it has been through, in order, each after a call of
    [llm.predict], and every call gets the query. *)
Lemma retry_loop_schedule (env : Env) (query : string) (attempts : list Z) (i : nat) :
  exists (r : string) (evs : list Event) (done rest : list Z),
    attempts = done ++ rest
    /\ sleeps evs = map (Z.pow 2) done
    /\ (length done <= predict_calls evs <= length attempts)%nat
    /\ forallb (about_query query) evs = true
    /\ forallb is_llm_event evs = true
    /\ forall w : World, llm_calls w = i ->
         retry_loop env query attempts w
         = (Ret r, extend w evs (predict_calls evs)).
Proof.
  revert i. induction attempts as [|a attempts IH]; intros i.
  - exists issues_msg, [], [], []. repeat split; try (unfold predict_calls; simpl; lia).
    intros w _. simpl. now rewrite extend_nil.
  - destruct (llm_predict env i query) as [v|e] eqn:Hcall.
    + exists v, [EvPredict query], [], (a :: attempts).
      repeat split; try (unfold predict_calls; simpl; lia).
      * simpl. now rewrite String.eqb_refl.
      * intros w <-. cbn [retry_loop]. unfold mbind at 1, M_bind at 1.
        now rewrite (retry_body_success _ _ _ _ v).
    + destruct ("429" in_str str e) eqn:H429.
      * destruct (IH (S i)) as (r & evs & done & rest & Hsplit & Hs & Hp & Hq & Hllm & Hrun).
        assert (Hpc : predict_calls (backoff_round query a ++ evs)
                      = S (predict_calls evs))
          by (rewrite predict_calls_app; reflexivity).
        exists r, (backoff_round query a ++ evs), (a :: done), rest.
        repeat split.
        -- simpl. now rewrite Hsplit.
        -- rewrite sleeps_app, Hs. reflexivity.
        -- rewrite Hpc. simpl. lia.
        -- rewrite Hpc. simpl. lia.
        -- rewrite forallb_app, Hq. simpl. now rewrite String.eqb_refl.
        -- rewrite forallb_app, Hllm. reflexivity.
        -- intros w <-. cbn [retry_loop]. unfold mbind at 1, M_bind at 1.
           rewrite retry_body_rate_limit by (now rewrite Hcall).
           rewrite Hrun by reflexivity.
           rewrite extend_extend, Hpc. f_equal. f_equal. lia.
      * exists apology_msg, [EvPredict query; EvPrint (ApiErrorLine e)],
          [], (a :: attempts).
        repeat split; try (unfold predict_calls; simpl; lia).
        -- simpl. now rewrite String.eqb_refl.
        -- intros w <-. cbn [retry_loop]. unfold mbind at 1, M_bind at 1.
           now rewrite (retry_body_other_failure _ _ _ _ e).
Qed.

(** The same for the whole fallback answerer, on its budget. *)
Lemma call_llm_with_retry_schedule (env : Env) (query : string) (max_retries : Z)
    (i : nat) :
  exists (r : string) (evs : list Event) (k : nat),
    (k <= predict_calls evs <= Z.to_nat max_retries)%nat
    /\ sleeps evs = map (Z.pow 2) (range (Z.of_nat k))
    /\ forallb (about_query query) evs = true
    /\ forallb is_llm_event evs = true
    /\ forall w : World, llm_calls w = i ->
         call_llm_with_retry env query max_retries w
         = (Ret r, extend w (EvFallback query :: evs) (predict_calls evs)).
Proof.
  destruct (retry_loop_schedule env query (range max_retries) i)
    as (r & evs & done & rest & Hsplit & Hs & Hp & Hq & Hllm & Hrun).
  exists r, evs, (length done).
  unfold range in Hp at 1. rewrite length_seqZ in Hp.
  repeat split; try lia; try assumption.
  - rewrite Hs. f_equal. exact (seqZ_prefix done rest 0 max_retries Hsplit).
  - intros w Hw. rewrite call_llm_with_retry_unfold, Hrun by exact Hw.
    rewrite extend_extend. f_equal. f_equal. lia.
Qed.

(** X1. For any stub and any budget [call_llm_with_retry] returns a string
    and leaves the memory alone; it calls [llm.predict] at most
    [max_retries] times; its sleeps are exactly 1, 2, 4, ... for some number
    [k] of attempts, never more than the calls made, so it sleeps
    [2^k - 1] seconds in all and never longer than [2^max_retries - 1]. *)
Theorem call_llm_with_retry_backoff_schedule (env : Env) (query : string)
    (max_retries : Z) (w : World) :
  exists (r : string) (w' : World) (k : nat),
    call_llm_with_retry env query max_retries w = (Ret r, w')
    /\ memory w' = memory w
    /\ (k <= predict_calls (events_since w w') <= Z.to_nat max_retries)%nat
    /\ sleeps (events_since w w') = map (Z.pow 2) (range (Z.of_nat k))
    /\ total_sleep (events_since w w') = 2 ^ Z.of_nat k - 1
    /\ total_sleep (events_since w w') <= 2 ^ Z.max 0 max_retries - 1.
Proof.
  destruct (call_llm_with_retry_schedule env query max_retries (llm_calls w))
    as (r & evs & k & Hp & Hs & _ & _ & Hrun).
  exists r. eexists. exists k. split; [apply Hrun; reflexivity|].
  rewrite events_since_extend.
  change (predict_calls (EvFallback query :: evs)) with (predict_calls evs).
  change (sleeps (EvFallback query :: evs)) with (sleeps evs).
  unfold total_sleep.
  change (sleeps (EvFallback query :: evs)) with (sleeps evs).
  rewrite Hs, total_sleep_powers.
  repeat split; try lia.
  assert (2 ^ Z.of_nat k <= 2 ^ Z.max 0 max_retries); [|lia].
  apply Z.pow_le_mono_r; lia.
Qed.

(** X2. With a budget of zero or less the fallback answerer gives up at
    once: it returns the "currently experiencing issues" string without
    calling [llm.predict], sleeping or printing. *)
Theorem call_llm_with_retry_no_budget (env : Env) (query : string)
    (max_retries : Z) (w : World) :
  max_retries <= 0 ->
  call_llm_with_retry env query max_retries w
  = (Ret issues_msg, extend w [EvFallback query] 0).
Proof.
  intros Hn. rewrite call_llm_with_retry_unfold.
  unfold range. rewrite seqZ_nil by exact Hn. reflexivity.
Qed.

Lemma call_llm_with_retry_no_budget_witness :
  call_llm_with_retry env_grounded "What is GST?" (-1) initial_world
  = (Ret issues_msg, extend initial_world [EvFallback "What is GST?"] 0).
Proof.
  apply (call_llm_with_retry_no_budget env_grounded "What is GST?" (-1) initial_world).
  lia.
Defined.

(** ** White space *)

Lemma strip_empty_iff (s : string) :
  PyStr.strip s = EmptyString <-> all_space s = true.
Proof. apply PyStrFacts.strip_blank_iff. Qed.

Lemma truthy_strip (s : string) :
  PyStr.truthy (PyStr.strip s) = negb (all_space s).
Proof.
  pose proof (strip_empty_iff s) as H.
  destruct (PyStr.strip s) eqn:Hs; destruct (all_space s); simpl; try reflexivity.
  - now destruct (proj1 H eq_refl).
  - discriminate (proj2 H eq_refl).
Qed.

(** ** What one request may do *)

Lemma retrieve_calls_app (tr1 tr2 : list Event) :
  retrieve_calls (tr1 ++ tr2) = (retrieve_calls tr1 + retrieve_calls tr2)%nat.
Proof. unfold retrieve_calls. now rewrite List.filter_app, length_app. Qed.

Lemma chain_calls_app (tr1 tr2 : list Event) :
  chain_calls (tr1 ++ tr2) = (chain_calls tr1 + chain_calls tr2)%nat.
Proof. unfold chain_calls. now rewrite List.filter_app, length_app. Qed.

Lemma total_sleep_app (tr1 tr2 : list Event) :
  total_sleep (tr1 ++ tr2) = total_sleep tr1 + total_sleep tr2.
Proof.
  unfold total_sleep. rewrite sleeps_app.
  induction (sleeps tr1) as [|x l IH]; cbn [app fold_right]; lia.
Qed.

Lemma llm_events_counts (evs : list Event) :
  forallb is_llm_event evs = true ->
  retrieve_calls evs = 0%nat /\ chain_calls evs = 0%nat
  /\ fallback_entries evs = 0%nat.
Proof.
  induction evs as [|ev evs IH]; [easy|].
  cbn [forallb]. intros [Hev Hall]%andb_prop.
  destruct (IH Hall) as (Hr & Hc & Hf).
  unfold retrieve_calls, chain_calls, fallback_entries in *.
  destruct ev; try discriminate; simpl; auto.
Qed.

(** What the calls of [app.py] after [retriever.invoke] of line 84 are
    allowed to be: no second call of [retriever.invoke], at most one call of
    [qa_chain.invoke], at most one entry into the fallback answerer, at most
    three calls of [llm.predict], at most seven seconds of [time.sleep], and
    the query handed on as it is. *)
Definition within_budget (query : string) (evs : list Event) : Prop :=
  retrieve_calls evs = 0%nat
  /\ (chain_calls evs <= 1)%nat
  /\ (fallback_entries evs <= 1)%nat
  /\ (predict_calls evs <= 3)%nat
  /\ 0 <= total_sleep evs <= 7
  /\ forallb (about_query query) evs = true.

Lemma within_budget_prefix (query : string) (pre evs : list Event) :
  retrieve_calls pre = 0%nat ->
  (chain_calls pre <= 1)%nat ->
  fallback_entries pre = 0%nat ->
  predict_calls pre = 0%nat ->
  total_sleep pre = 0 ->
  forallb (about_query query) pre = true ->
  retrieve_calls evs = 0%nat /\ chain_calls evs = 0%nat
  /\ (fallback_entries evs <= 1)%nat
  /\ (predict_calls evs <= 3)%nat
  /\ 0 <= total_sleep evs <= 7
  /\ forallb (about_query query) evs = true ->
  within_budget query (pre ++ evs).
Proof.
  intros Hr Hc Hf Hp Hs Hq (Hr' & Hc' & Hf' & Hp' & Hs' & Hq').
  unfold within_budget.
  rewrite retrieve_calls_app, chain_calls_app, fallback_entries_app,
    predict_calls_app, total_sleep_app, forallb_app, Hq, Hq'.
  repeat split; lia.
Qed.

(** The fallback gate within these bounds. *)
Lemma gated_fallback_budget (env : Env) (query rejection : string) (w1 : World) :
  exists (r : string) (evs : list Event),
    gated_fallback env query rejection w1
    = (Ret r, extend w1 evs (predict_calls evs))
    /\ retrieve_calls evs = 0%nat /\ chain_calls evs = 0%nat
    /\ (fallback_entries evs <= 1)%nat
    /\ (predict_calls evs <= 3)%nat
    /\ 0 <= total_sleep evs <= 7
    /\ forallb (about_query query) evs = true.
Proof.
  unfold gated_fallback. destruct (is_finance_tax_related query).
  - destruct (call_llm_with_retry_schedule env query default_max_retries
                (llm_calls w1)) as (r & evs & k & Hp & Hs & Hq & Hllm & Hrun).
    destruct (llm_events_counts evs Hllm) as (Hr & Hc & Hf).
    exists r, (EvFallback query :: evs). split; [now apply Hrun|].
    change (EvFallback query :: evs) with ([EvFallback query] ++ evs).
    assert (Hts : total_sleep evs = 2 ^ Z.of_nat k - 1)
      by (unfold total_sleep; now rewrite Hs, total_sleep_powers).
    rewrite retrieve_calls_app, chain_calls_app, fallback_entries_app,
      predict_calls_app, total_sleep_app, forallb_app, Hr, Hc, Hf, Hq, Hts.
    assert (Hk : (k <= 3)%nat) by (unfold default_max_retries in Hp; lia).
    assert (Hpow : 1 <= 2 ^ Z.of_nat k <= 8).
    { split; [apply (Z.pow_le_mono_r 2 0); lia|].
      change 8 with (2 ^ 3). apply Z.pow_le_mono_r; lia. }
    change (retrieve_calls [EvFallback query]) with 0%nat.
    change (chain_calls [EvFallback query]) with 0%nat.
    change (fallback_entries [EvFallback query]) with 1%nat.
    change (predict_calls [EvFallback query]) with 0%nat.
    change (total_sleep [EvFallback query]) with 0.
    cbn [forallb about_query]. rewrite String.eqb_refl.
    unfold default_max_retries in Hp.
    repeat split; try reflexivity; lia.
  - exists rejection, []. unfold mret, M_ret. rewrite extend_nil.
    repeat split; try reflexivity;
      unfold fallback_entries, predict_calls, total_sleep; simpl; lia.
Qed.

Lemma extend_inj (w : World) (evs1 evs2 : list Event) (c1 c2 : nat) :
  extend w evs1 c1 = extend w evs2 c2 -> evs1 = evs2.
Proof.
  unfold extend. intros H. injection H as _ H. now apply app_inv_head in H.
Qed.

Ltac budget_side Hq :=
  first
    [ reflexivity
    | unfold chain_calls, fallback_entries, predict_calls, total_sleep;
      simpl; lia
    | cbn; rewrite Hq; reflexivity ].

(** X3. Whatever the collaborators do, one call of [get_answer] returns a
    string, and the calls the code of [app.py] makes during it stay within
    fixed bounds: [retriever.invoke] of line 84 comes first and is called
    once, on the retriever set up with [k = 5]; after that [qa_chain.invoke]
    is called at most once, the fallback answerer is entered at most once,
    [llm.predict] is called at most three times and [time.sleep] is asked
    for at most seven seconds in all; and each of these calls is given the
    query as [get_answer] received it.  The bounds count the calls written
    in [app.py]: what the chain does during its one run, where LangChain
    queries the same retriever and the same model again, possibly with a
    rephrased question, is outside them. *)
Theorem get_answer_call_budget (env : Env) (query : string) (w : World) :
  exists (r : string) (w' : World) (rest : list Event),
    get_answer env query w = (Ret r, w')
    /\ events_since w w' = EvRetrieve 5 query :: rest
    /\ within_budget query rest.
Proof.
  assert (Hq : (query =? query)%string = true) by apply String.eqb_refl.
  destruct (retriever_invoke env 5 query) as [docs|e] eqn:H.
  - destruct (has_text docs) eqn:Hdocs.
    + destruct (qa_chain_call env query (memory w)) as [answer|e] eqn:Hchain.
      * assert (Hgrounded : within_budget query ([EvChain query] ++ [])).
        { apply within_budget_prefix; [budget_side Hq ..|].
          repeat split; budget_side Hq. }
        destruct (disclaims (PyStr.strip answer)) eqn:Hd.
        -- destruct (is_finance_tax_related query) eqn:Hfin.
           ++ destruct (get_answer_disclaimed_augmented env query w docs answer
                          H Hdocs Hchain Hd Hfin)
                as (llm_answer & evs & Hcall & _ & Hrun).
              pose proof (gated_fallback_budget env query reject_ungrounded
                            (after_chain query w answer)) as Hgate.
              unfold gated_fallback in Hgate. rewrite Hfin in Hgate.
              destruct Hgate as (r2 & evs2 & Hcall2 & Hbudget).
              rewrite Hcall in Hcall2.
              apply (f_equal snd) in Hcall2. cbn [snd] in Hcall2.
              apply extend_inj in Hcall2. subst evs2.
              eexists. eexists. exists ([EvChain query] ++ EvFallback query :: evs).
              split; [exact Hrun|]. split.
              ** now rewrite events_since_after_chain.
              ** apply within_budget_prefix; [budget_side Hq ..|exact Hbudget].
           ++ rewrite (get_answer_disclaimed_rejected env query w docs answer
                         H Hdocs Hchain Hd Hfin).
              eexists. eexists. exists ([EvChain query] ++ []).
              split; [reflexivity|]. split; [|exact Hgrounded].
              unfold after_chain. now rewrite events_since_remember.
        -- rewrite (get_answer_grounded_clean env query w docs answer
                      H Hdocs Hchain Hd).
           eexists. eexists. exists ([EvChain query] ++ []).
           split; [reflexivity|]. split; [|exact Hgrounded].
           unfold after_chain. now rewrite events_since_remember.
      * rewrite (get_answer_generation_failed env query w docs e H Hdocs Hchain).
        destruct (gated_fallback_budget env query reject_chain_error
          (extend w [EvRetrieve 5 query; EvChain query; EvPrint (ChainErrorLine e)] 0))
          as (r & evs & -> & Hbudget).
        eexists. eexists.
        exists ([EvChain query; EvPrint (ChainErrorLine e)] ++ evs).
        split; [reflexivity|]. split.
        -- now rewrite extend_extend, events_since_extend.
        -- apply within_budget_prefix; [budget_side Hq ..|exact Hbudget].
    + rewrite (get_answer_retrieval_empty env query w docs H Hdocs).
      destruct (gated_fallback_budget env query reject_ungrounded
                  (extend w [EvRetrieve 5 query] 0)) as (r & evs & -> & Hbudget).
      eexists. eexists. exists ([] ++ evs).
      split; [reflexivity|]. split.
      * now rewrite extend_extend, events_since_extend.
      * apply within_budget_prefix; [budget_side Hq ..|exact Hbudget].
  - rewrite (get_answer_retrieval_failed env query w e H).
    destruct (gated_fallback_budget env query reject_ungrounded
      (extend w [EvRetrieve 5 query; EvPrint (RetrievalErrorLine e)] 0))
      as (r & evs & -> & Hbudget).
    eexists. eexists. exists ([EvPrint (RetrievalErrorLine e)] ++ evs).
    split; [reflexivity|]. split.
    + now rewrite extend_extend, events_since_extend.
    + apply within_budget_prefix; [budget_side Hq ..|exact Hbudget].
Qed.

(** ** Blank text *)

(** X4. An answer of the chain that is empty or all white space is not
    treated as a failure: for any query, inside the domain or not,
    [get_answer] returns the empty string, without entering the fallback
    answerer and without a rejection, the turn is saved to the memory, and
    the endpoint answers 200 with an empty "answer". *)
Theorem get_answer_blank_answer (env : Env) (query : string) (w : World)
    (docs : list Doc) (answer : string) (fields : gmap string string) :
  retriever_invoke env 5 query = Ret docs ->
  has_text docs = true ->
  qa_chain_call env query (memory w) = Ret answer ->
  all_space answer = true ->
  get_answer env query w = (Ret EmptyString, after_chain query w answer)
  /\ events_since w (after_chain query w answer)
     = [EvRetrieve 5 query; EvChain query]
  /\ memory (after_chain query w answer) = memory w ++ [(query, answer)]
  /\ (fields !! "message" = Some query -> query <> EmptyString ->
      chat env {| get_json := Ret (JObject fields) |} w
      = (Ret (answer_response EmptyString), after_chain query w answer)).
Proof.
  intros Hdocs Htext Hchain Hblank.
  assert (Hstrip : PyStr.strip answer = EmptyString)
    by now apply strip_empty_iff.
  assert (Hrun : get_answer env query w
                 = (Ret EmptyString, after_chain query w answer)).
  { rewrite <- Hstrip.
    apply (get_answer_grounded_clean env query w docs answer Hdocs Htext Hchain).
    now rewrite Hstrip. }
  split; [exact Hrun|]. split.
  - unfold after_chain. now rewrite events_since_remember.
  - split; [reflexivity|]. intros Hmsg Hne.
    destruct (chat_message env fields w query Hmsg Hne)
      as (answer' & w' & Hrun' & Hchat).
    rewrite Hrun in Hrun'. injection Hrun' as <- <-. exact Hchat.
Qed.

(** A space, a no-break space, a line feed and an ideographic space. *)
Definition blank_answer : string :=
  String " " (String (Ascii.ascii_of_nat 194) (String (Ascii.ascii_of_nat 160)
    (String (Ascii.ascii_of_nat 10) (String (Ascii.ascii_of_nat 227)
      (String (Ascii.ascii_of_nat 128) (String (Ascii.ascii_of_nat 128)
        EmptyString)))))).

Definition env_blank_answer : Env :=
  {| retriever_invoke := fun _ _ =>
       Ret [ {| page_content := "Section 80C: deductions on investments." |} ];
     qa_chain_call := fun _ _ => Ret blank_answer;
     llm_predict := fun _ _ => Ret "not called" |}.

Lemma get_answer_blank_answer_witness :
  get_answer env_blank_answer "What is the GST rate?" initial_world
  = (Ret EmptyString,
     after_chain "What is the GST rate?" initial_world blank_answer)
  /\ chat env_blank_answer
       {| get_json := Ret (JObject {[ "message" := "What is the GST rate?" ]}) |}
       initial_world
     = (Ret (answer_response EmptyString),
        after_chain "What is the GST rate?" initial_world blank_answer).
Proof.
  destruct (get_answer_blank_answer env_blank_answer "What is the GST rate?"
              initial_world
              [ {| page_content := "Section 80C: deductions on investments." |} ]
              blank_answer {[ "message" := "What is the GST rate?" ]}
              eq_refl eq_refl eq_refl eq_refl)
    as (Hrun & _ & _ & Hchat).
  split; [exact Hrun|].
  apply Hchat; [apply lookup_singleton_eq | discriminate].
Defined.

(** X5. Retrieved chunks count only by their visible text: the test of
    line 89 holds exactly when some chunk has a character that is not white
    space.  When every chunk is blank (or there is none) the chain is never
    run and the memory is not touched: the request takes the domain-gated
    ungrounded branch. *)
Theorem get_answer_blank_chunks (env : Env) (query : string) (w : World)
    (docs : list Doc) :
  (has_text docs = true
   <-> exists doc : Doc, In doc docs /\ all_space (page_content doc) = false)
  /\ (retriever_invoke env 5 query = Ret docs ->
      (forall doc : Doc, In doc docs -> all_space (page_content doc) = true) ->
      get_answer env query w
      = gated_fallback env query reject_ungrounded (extend w [EvRetrieve 5 query] 0)
      /\ exists (r : string) (w' : World),
           get_answer env query w = (Ret r, w')
           /\ memory w' = memory w
           /\ chain_calls (events_since w w') = 0%nat).
Proof.
  assert (Hiff : has_text docs = true
                 <-> exists doc : Doc,
                       In doc docs /\ all_space (page_content doc) = false).
  { unfold has_text. rewrite andb_true_iff, existsb_exists. split.
    - intros (_ & doc & Hin & Hdoc). exists doc. split; [exact Hin|].
      rewrite truthy_strip in Hdoc. now destruct (all_space (page_content doc)).
    - intros (doc & Hin & Hdoc). split.
      + destruct docs; [destruct Hin | reflexivity].
      + exists doc. split; [exact Hin|]. rewrite truthy_strip. now rewrite Hdoc. }
  split; [exact Hiff|].
  intros Hdocs Hblank.
  assert (Htext : has_text docs = false).
  { apply not_true_iff_false. rewrite Hiff. intros (doc & Hin & Hdoc).
    rewrite (Hblank doc Hin) in Hdoc. discriminate. }
  pose proof (get_answer_retrieval_empty env query w docs Hdocs Htext) as Hrun.
  split; [exact Hrun|].
  destruct (gated_fallback_budget env query reject_ungrounded
              (extend w [EvRetrieve 5 query] 0))
    as (r & evs & Hgate & _ & Hc & _).
  rewrite Hrun, Hgate. exists r. eexists. split; [reflexivity|].
  split; [reflexivity|].
  rewrite extend_extend, events_since_extend.
  change ([EvRetrieve 5 query] ++ evs) with (EvRetrieve 5 query :: evs).
  exact Hc.
Qed.

Definition env_blank_chunks : Env :=
  {| retriever_invoke := fun _ _ =>
       Ret [ {| page_content := "  " |}; {| page_content := "" |};
             {| page_content := nbsp |} ];
     qa_chain_call := fun _ _ => Ret "not called";
     llm_predict := fun _ _ => Ret "not called" |}.

Lemma get_answer_blank_chunks_witness :
  get_answer env_blank_chunks "What's the weather?" initial_world
  = (Ret reject_ungrounded,
     extend initial_world [EvRetrieve 5 "What's the weather?"] 0).
Proof.
  destruct (proj2 (get_answer_blank_chunks env_blank_chunks "What's the weather?"
                     initial_world
                     [ {| page_content := "  " |}; {| page_content := "" |};
                       {| page_content := nbsp |} ])
              eq_refl) as (Hrun & _).
  - intros doc [<-|[<-|[<-|[]]]]; reflexivity.
  - exact Hrun.
Defined.

(** ** The ungrounded branches inside the domain *)

(** X6. For a query the domain filter accepts, when no grounded answer is
    produced (the retriever raised, it returned no chunk with text, or the
    chain raised) [get_answer] returns what the fallback answerer returns,
    as it is, with no label and no grounded text; the fallback answerer is
    entered exactly once and the memory is left as it was. *)
Theorem get_answer_finance_ungrounded (env : Env) (query : string) (w : World) :
  is_finance_tax_related query = true ->
  (exists e : Exn, retriever_invoke env 5 query = Raise e)
  \/ (exists docs : list Doc,
        retriever_invoke env 5 query = Ret docs /\ has_text docs = false)
  \/ (exists (docs : list Doc) (e : Exn),
        retriever_invoke env 5 query = Ret docs /\ has_text docs = true
        /\ qa_chain_call env query (memory w) = Raise e) ->
  exists (w1 : World) (llm_answer : string) (w' : World),
    memory w1 = memory w /\ llm_calls w1 = llm_calls w
    /\ call_llm_with_retry env query default_max_retries w1 = (Ret llm_answer, w')
    /\ get_answer env query w = (Ret llm_answer, w')
    /\ fallback_entries (events_since w w') = 1%nat
    /\ memory w' = memory w.
Proof.
  intros Hfin Hpath.
  assert (Hgate : forall (rejection : string) (pre : list Event),
            fallback_entries pre = 0%nat ->
            get_answer env query w
            = gated_fallback env query rejection (extend w pre 0) ->
            exists (w1 : World) (llm_answer : string) (w' : World),
              memory w1 = memory w /\ llm_calls w1 = llm_calls w
              /\ call_llm_with_retry env query default_max_retries w1
                 = (Ret llm_answer, w')
              /\ get_answer env query w = (Ret llm_answer, w')
              /\ fallback_entries (events_since w w') = 1%nat
              /\ memory w' = memory w).
  { intros rejection pre Hpre Hrun. unfold gated_fallback in Hrun.
    rewrite Hfin in Hrun.
    destruct (call_llm_with_retry_returns env query default_max_retries
                (llm_calls (extend w pre 0)))
      as (r & evs & _ & Hfb & _ & Hcall).
    specialize (Hcall (extend w pre 0) eq_refl).
    exists (extend w pre 0), r. eexists.
    split; [reflexivity|]. split; [reflexivity|]. split; [exact Hcall|].
    split; [now rewrite Hrun|].
    rewrite extend_extend, events_since_extend. split; [|reflexivity].
    change (pre ++ EvFallback query :: evs)
      with (pre ++ [EvFallback query] ++ evs).
    rewrite !fallback_entries_app, Hpre, Hfb. reflexivity. }
  destruct Hpath as [[e H]|[(docs & H & Htext)|(docs & e & H & Htext & Hchain)]].
  - apply (Hgate reject_ungrounded
             [EvRetrieve 5 query; EvPrint (RetrievalErrorLine e)]);
      [reflexivity | now apply get_answer_retrieval_failed].
  - apply (Hgate reject_ungrounded [EvRetrieve 5 query]);
      [reflexivity | now apply (get_answer_retrieval_empty env query w docs)].
  - apply (Hgate reject_chain_error
             [EvRetrieve 5 query; EvChain query; EvPrint (ChainErrorLine e)]);
      [reflexivity | now apply (get_answer_generation_failed env query w docs)].
Qed.

Lemma get_answer_finance_ungrounded_witness :
  exists w' : World,
    get_answer env_chain_down "What is the GST rate?" initial_world
    = (Ret "Here is what I know.", w')
    /\ fallback_entries (events_since initial_world w') = 1%nat
    /\ memory w' = memory initial_world.
Proof.
  destruct (get_answer_finance_ungrounded env_chain_down "What is the GST rate?"
              initial_world eq_refl)
    as (w1 & llm_answer & w' & _ & _ & Hcall & Hrun & Hfb & Hmem).
  - right. right.
    exists [ {| page_content := "Section 80C: deductions on investments." |} ],
      (Exception "Connection error.").
    repeat split; reflexivity.
  - exists w'. split; [|split; assumption].
    rewrite Hrun. f_equal. f_equal.
    assert (Hfirst : fst (get_answer env_chain_down "What is the GST rate?"
                            initial_world) = Ret "Here is what I know.")
      by reflexivity.
    rewrite Hrun in Hfirst. now injection Hfirst.
Defined.

(** ** One request after another *)

(** X7. The memory is shared between requests.  After a request whose
    disclaiming answer was turned into a rejection, the chain of the next
    request is run on a history that ends with the rejected query and the
    answer the user never saw; when that next request is answered from the
    documents, the memory holds both turns, in the order of the requests. *)
Theorem get_answer_history_accumulates (env : Env) (q1 q2 : string) (w : World)
    (docs1 docs2 : list Doc) (a1 a2 : string) :
  is_finance_tax_related q1 = false ->
  retriever_invoke env 5 q1 = Ret docs1 -> has_text docs1 = true ->
  qa_chain_call env q1 (memory w) = Ret a1 -> disclaims a1 = true ->
  retriever_invoke env 5 q2 = Ret docs2 -> has_text docs2 = true ->
  qa_chain_call env q2 (memory w ++ [(q1, a1)]) = Ret a2 ->
  disclaims a2 = false ->
  exists w1 w2 : World,
    get_answer env q1 w = (Ret reject_disclaiming, w1)
    /\ get_answer env q2 w1 = (Ret (PyStr.strip a2), w2)
    /\ memory w2 = memory w ++ [(q1, a1); (q2, a2)].
Proof.
  intros Hfin H1 Ht1 Hc1 Hd1 H2 Ht2 Hc2 Hd2.
  rewrite <- disclaims_strip in Hd1, Hd2.
  exists (after_chain q1 w a1), (after_chain q2 (after_chain q1 w a1) a2).
  split; [|split].
  - now apply (get_answer_disclaimed_rejected env q1 w docs1 a1).
  - now apply (get_answer_grounded_clean env q2 (after_chain q1 w a1) docs2 a2).
  - unfold after_chain, remember, extend; simpl. now rewrite <- app_assoc.
Qed.

Definition env_history : Env :=
  {| retriever_invoke := fun _ _ =>
       Ret [ {| page_content := "Section 80C: deductions on investments." |} ];
     qa_chain_call := fun _ history =>
       match history with
       | [] => Ret "The context does not mention that."
       | _ :: _ => Ret "Section 80C allows deductions."
       end;
     llm_predict := fun _ _ => Ret "not called" |}.

Lemma get_answer_history_accumulates_witness :
  exists w1 w2 : World,
    get_answer env_history "What's the weather?" initial_world
    = (Ret reject_disclaiming, w1)
    /\ get_answer env_history "What does 80C allow?" w1
       = (Ret "Section 80C allows deductions.", w2)
    /\ memory w2
       = [("What's the weather?", "The context does not mention that.");
          ("What does 80C allow?", "Section 80C allows deductions.")].
Proof.
  apply (get_answer_history_accumulates env_history
           "What's the weather?" "What does 80C allow?" initial_world
           [ {| page_content := "Section 80C: deductions on investments." |} ]
           [ {| page_content := "Section 80C: deductions on investments." |} ]
           "The context does not mention that." "Section 80C allows deductions.");
    reflexivity.
Defined.

(** ** The three answers of the endpoint *)

(** X8. For the requests of the model (a body that cannot be read, a body
    that is not a JSON object, or a JSON object whose fields are strings, as
    the endpoint's contract has them) the handler never raises: every such
    request gets a response, and its status tells which way it went.  It is
    400 exactly when the body is an object whose "message" is missing or
    the empty string, 200 exactly when it is an object with a non-empty
    string "message", and 500 exactly when the body could not be read or is
    not an object; no failure of the retriever, the chain or the model ever
    shows as a 500, since [get_answer] turns each of them into a string.
    An object whose "message" is not a string is not among these requests. *)
Theorem chat_status_cases (env : Env) (request : Request) (w : World) :
  exists (response : Response) (w' : World),
    chat env request w = (Ret response, w')
    /\ (status response = 400
        <-> exists fields : gmap string string,
              get_json request = Ret (JObject fields)
              /\ (fields !! "message" = None
                  \/ fields !! "message" = Some EmptyString))
    /\ (status response = 200
        <-> exists (fields : gmap string string) (message : string),
              get_json request = Ret (JObject fields)
              /\ fields !! "message" = Some message
              /\ message <> EmptyString)
    /\ (status response = 500
        <-> (exists e : Exn, get_json request = Raise e)
            \/ get_json request = Ret JNull
            \/ exists type_name : string,
                 get_json request = Ret (JOther type_name)).
Proof.
  destruct request as [[[| fields | type_name] | e]].
  - exists (error_response (no_get_error "NoneType")). eexists.
    split; [reflexivity|]. cbn [get_json status error_response].
    split; [|split].
    + split; [discriminate | intros (f & Hf & _); discriminate].
    + split; [discriminate | intros (f & m & Hf & _); discriminate].
    + split; [now right; left | reflexivity].
  - destruct (fields !! "message") as [[|c rest]|] eqn:Hmsg.
    + exists no_message_response, w.
      split; [apply chat_no_message; now right|].
      cbn [get_json status no_message_response]. split; [|split].
      * split; [|reflexivity]. intros _. exists fields. split; [reflexivity|].
        now right.
      * split; [discriminate|].
        intros (f & m & Hf & Hm & Hne). injection Hf as <-. congruence.
      * split; [discriminate|].
        intros [[e He]|[He|[t He]]]; discriminate.
    + destruct (chat_message env fields w (String c rest) Hmsg)
        as (answer & w' & _ & Hchat); [discriminate|].
      exists (answer_response answer), w'. split; [exact Hchat|].
      cbn [get_json status answer_response]. split; [|split].
      * split; [discriminate|].
        intros (f & Hf & Hm). injection Hf as <-.
        destruct Hm as [Hm|Hm]; congruence.
      * split; [|reflexivity]. intros _. exists fields, (String c rest).
        repeat split; [exact Hmsg | discriminate].
      * split; [discriminate|].
        intros [[e He]|[He|[t He]]]; discriminate.
    + exists no_message_response, w.
      split; [apply chat_no_message; now left|].
      cbn [get_json status no_message_response]. split; [|split].
      * split; [|reflexivity]. intros _. exists fields. split; [reflexivity|].
        now left.
      * split; [discriminate|].
        intros (f & m & Hf & Hm & Hne). injection Hf as <-. congruence.
      * split; [discriminate|].
        intros [[e He]|[He|[t He]]]; discriminate.
  - exists (error_response (no_get_error type_name)). eexists.
    split; [reflexivity|]. cbn [get_json status error_response].
    split; [|split].
    + split; [discriminate | intros (f & Hf & _); discriminate].
    + split; [discriminate | intros (f & m & Hf & _); discriminate].
    + split; [right; right; now exists type_name | reflexivity].
  - exists (error_response e). eexists.
    split; [reflexivity|]. cbn [get_json status error_response].
    split; [|split].
    + split; [discriminate | intros (f & Hf & _); discriminate].
    + split; [discriminate | intros (f & m & Hf & _); discriminate].
    + split; [left; now exists e | reflexivity].
Qed.

(** ** When the raw model is asked *)

Lemma gated_fallback_entries (env : Env) (query rejection : string) (w1 : World) :
  exists (r : string) (evs : list Event),
    gated_fallback env query rejection w1
    = (Ret r, extend w1 evs (predict_calls evs))
    /\ fallback_entries evs
       = (if is_finance_tax_related query then 1 else 0)%nat
    /\ (is_finance_tax_related query = false -> predict_calls evs = 0%nat).
Proof.
  unfold gated_fallback. destruct (is_finance_tax_related query).
  - destruct (call_llm_with_retry_returns env query default_max_retries
                (llm_calls w1)) as (r & evs & _ & Hfb & _ & Hrun).
    exists r, (EvFallback query :: evs). split; [now apply Hrun|].
    split; [|discriminate].
    change (EvFallback query :: evs) with ([EvFallback query] ++ evs).
    now rewrite fallback_entries_app, Hfb.
  - exists rejection, []. unfold mret, M_ret. rewrite extend_nil.
    repeat split; reflexivity.
Qed.

(** X15. The fallback answerer is entered exactly when the query is inside
    the domain and no clean grounded answer is produced, and then exactly
    once; for a query outside the domain [llm.predict] is never called, on
    any path. *)
Theorem get_answer_fallback_iff (env : Env) (query : string) (w : World) :
  exists (r : string) (w' : World),
    get_answer env query w = (Ret r, w')
    /\ fallback_entries (events_since w w')
       = (if is_finance_tax_related query && negb (grounded_clean env query w)
          then 1 else 0)%nat
    /\ (is_finance_tax_related query = false ->
        predict_calls (events_since w w') = 0%nat).
Proof.
  unfold grounded_clean.
  destruct (retriever_invoke env 5 query) as [docs|e] eqn:H.
  - destruct (has_text docs) eqn:Hdocs.
    + destruct (qa_chain_call env query (memory w)) as [answer|e] eqn:Hchain.
      * rewrite <- (disclaims_strip answer).
        destruct (disclaims (PyStr.strip answer)) eqn:Hd.
        -- destruct (is_finance_tax_related query) eqn:Hfin.
           ++ destruct (get_answer_disclaimed_augmented env query w docs answer
                          H Hdocs Hchain Hd Hfin)
                as (llm_answer & evs & _ & Hfb & Hrun).
              rewrite Hrun. eexists. eexists. split; [reflexivity|].
              rewrite events_since_after_chain. split; [|discriminate].
              change ([EvRetrieve 5 query; EvChain query] ++ EvFallback query :: evs)
                with ([EvRetrieve 5 query; EvChain query; EvFallback query] ++ evs).
              now rewrite fallback_entries_app, Hfb.
           ++ rewrite (get_answer_disclaimed_rejected env query w docs answer
                         H Hdocs Hchain Hd Hfin).
              eexists. eexists. split; [reflexivity|].
              unfold after_chain. rewrite events_since_remember.
              split; reflexivity.
        -- rewrite (get_answer_grounded_clean env query w docs answer
                      H Hdocs Hchain Hd).
           eexists. eexists. split; [reflexivity|].
           unfold after_chain. rewrite events_since_remember.
           rewrite andb_false_r. split; reflexivity.
      * rewrite (get_answer_generation_failed env query w docs e H Hdocs Hchain).
        destruct (gated_fallback_entries env query reject_chain_error
          (extend w [EvRetrieve 5 query; EvChain query; EvPrint (ChainErrorLine e)] 0))
          as (r & evs & -> & Hfb & Hp).
        eexists. eexists. split; [reflexivity|].
        rewrite extend_extend, events_since_extend.
        rewrite fallback_entries_app, predict_calls_app, Hfb, andb_true_r.
        split; [reflexivity|]. intros Hfin. now rewrite (Hp Hfin).
    + rewrite (get_answer_retrieval_empty env query w docs H Hdocs).
      destruct (gated_fallback_entries env query reject_ungrounded
                  (extend w [EvRetrieve 5 query] 0)) as (r & evs & -> & Hfb & Hp).
      eexists. eexists. split; [reflexivity|].
      rewrite extend_extend, events_since_extend.
      rewrite fallback_entries_app, predict_calls_app, Hfb, andb_true_r.
      split; [reflexivity|]. intros Hfin. now rewrite (Hp Hfin).
  - rewrite (get_answer_retrieval_failed env query w e H).
    destruct (gated_fallback_entries env query reject_ungrounded
      (extend w [EvRetrieve 5 query; EvPrint (RetrievalErrorLine e)] 0))
      as (r & evs & -> & Hfb & Hp).
    eexists. eexists. split; [reflexivity|].
    rewrite extend_extend, events_since_extend.
    rewrite fallback_entries_app, predict_calls_app, Hfb, andb_true_r.
    split; [reflexivity|]. intros Hfin. now rewrite (Hp Hfin).
Qed.

(** * Further properties of the domain filter *)

Lemma append_assoc (a b c : string) : (a +:+ b) +:+ c = a +:+ (b +:+ c).
Proof.
  induction a as [|x a IH]; [reflexivity|].
  now rewrite !PyStrFacts.append_cons, IH.
Qed.

Lemma lower_append (a b : string) :
  PyStr.lower (a +:+ b) = PyStr.lower a +:+ PyStr.lower b.
Proof.
  induction a as [|x a IH]; [reflexivity|].
  rewrite PyStrFacts.append_cons. cbn [PyStr.lower].
  now rewrite PyStrFacts.append_cons, IH.
Qed.

Lemma contains_embed (needle hay pre post : string) :
  needle in_str hay = true -> needle in_str (pre +:+ hay +:+ post) = true.
Proof.
  rewrite !PyStrFacts.contains_iff. intros (p & q & ->).
  exists (pre +:+ p), (q +:+ post). now rewrite !append_assoc.
Qed.

Lemma contains_trans (a b hay : string) :
  a in_str b = true -> b in_str hay = true -> a in_str hay = true.
Proof.
  intros Hab. rewrite (PyStrFacts.contains_iff b hay). intros (p & q & ->).
  now apply contains_embed.
Qed.

(** X9. The filter only ever looks for an occurrence: a query it accepts is
    still accepted with any text put before and after it, so a query it
    rejects has no part it would accept. *)
Theorem is_finance_tax_related_embed (query pre post : string) :
  is_finance_tax_related query = true ->
  is_finance_tax_related (pre +:+ query +:+ post) = true.
Proof.
  unfold is_finance_tax_related. cbv zeta. rewrite !existsb_exists.
  intros (kw & Hin & Hkw). exists kw. split; [exact Hin|].
  rewrite !lower_append. now apply contains_embed.
Qed.

Lemma is_finance_tax_related_embed_witness :
  is_finance_tax_related ("Hi! " +:+ "my ITR status" +:+ " please") = true.
Proof.
  apply (is_finance_tax_related_embed "my ITR status" "Hi! " " please").
  reflexivity.
Defined.

(** The sixteen keywords that decide. *)
Definition deciding_keywords : list string :=
  [ "tax"; "gst"; "income"; "itr"; "capital gain"; "deduction"; "filing";
    "assessment"; "refund"; "audit"; "financial year"; "finance";
    "exemption"; "tds"; "section"; "investment" ].

(** X10. Two of the eighteen keywords never decide: a text with
    "income tax" or "taxable" in it has "tax" in it, so the filter gives the
    same verdict as the one over the other sixteen keywords. *)
Theorem is_finance_tax_related_sixteen (query : string) :
  is_finance_tax_related query
  = existsb (fun kw => kw in_str PyStr.lower query) deciding_keywords.
Proof.
  unfold is_finance_tax_related. cbv zeta.
  set (hay := PyStr.lower query).
  apply eq_true_iff_eq. rewrite !existsb_exists. split.
  - intros (kw & Hin & Hkw).
    assert (Hcases : In kw deciding_keywords \/ "tax" in_str kw = true).
    { simpl in Hin. unfold deciding_keywords. simpl.
      repeat (destruct Hin as [<-|Hin]; [tauto || (right; reflexivity)|]).
      destruct Hin. }
    destruct Hcases as [Hin'|Htax].
    + now exists kw.
    + exists "tax". split; [now left|]. exact (contains_trans _ _ _ Htax Hkw).
  - intros (kw & Hin & Hkw). exists kw. split; [|exact Hkw].
    unfold deciding_keywords in Hin. simpl in Hin. unfold keywords. simpl.
    repeat (destruct Hin as [<-|Hin]; [tauto|]). destruct Hin.
Qed.

(** * Properties of the start-up *)

Lemma endswith_iff (suffix s : string) :
  endswith suffix s = true <-> exists stem : string, s = stem +:+ suffix.
Proof.
  induction s as [|c s IH]; cbn [endswith].
  - destruct (String.eqb_spec EmptyString suffix) as [<-|Hne].
    + split; [intros _; now exists EmptyString | reflexivity].
    + split; [discriminate|]. intros ([|x stem] & H); [|discriminate].
      now contradiction Hne.
  - destruct (String.eqb_spec (String c s) suffix) as [<-|Hne].
    + split; [intros _; now exists EmptyString | reflexivity].
    + rewrite IH. split.
      * intros (stem & ->). now exists (String c stem).
      * intros ([|x stem] & H).
        -- now contradiction Hne.
        -- rewrite PyStrFacts.append_cons in H. injection H as _ ->.
           now exists stem.
Qed.

Lemma loads_app (log1 log2 : list StartupEvent) :
  loads (log1 ++ log2) = loads log1 ++ loads log2.
Proof. unfold loads. apply flat_map_app. Qed.

Lemma loads_map_SeLoad (pdf_files : list string) :
  loads (map SeLoad pdf_files) = pdf_files.
Proof.
  induction pdf_files as [|p l IH]; [reflexivity|].
  cbn [map]. change (SeLoad p :: map SeLoad l) with ([SeLoad p] ++ map SeLoad l).
  now rewrite loads_app, IH.
Qed.

(** The loop, when every file loads: the pages in the order of the files. *)
Lemma load_pdfs_all (host : Host) (pdf_files : list string) (docs : list Doc) :
  forallb (loads_fine host) pdf_files = true ->
  load_pdfs host pdf_files docs
  = (Started (docs ++ flat_map (pages_of host) pdf_files), map SeLoad pdf_files).
Proof.
  revert docs. induction pdf_files as [|p l IH]; intros docs Hall.
  - simpl. now rewrite app_nil_r.
  - cbn [forallb] in Hall. apply andb_prop in Hall as [Hp Hl].
    cbn [load_pdfs flat_map map]. unfold loads_fine in Hp. unfold pages_of at 1.
    destruct (pdf_load host p) as [pages|e]; [|discriminate].
    rewrite (IH _ Hl). now rewrite app_assoc.
Qed.

(** The loop, when a file fails after others have loaded: it stops there. *)
Lemma load_pdfs_stops (host : Host) (done rest : list string) (bad : string)
    (e : Exn) (docs : list Doc) :
  forallb (loads_fine host) done = true ->
  pdf_load host bad = Raise e ->
  load_pdfs host (done ++ bad :: rest) docs
  = (Aborted (LibraryError e), map SeLoad (done ++ [bad])).
Proof.
  revert docs. induction done as [|p l IH]; intros docs Hall Hbad.
  - cbn [app load_pdfs map]. now rewrite Hbad.
  - cbn [forallb] in Hall. apply andb_prop in Hall as [Hp Hl].
    cbn [app load_pdfs map]. unfold loads_fine in Hp.
    destruct (pdf_load host p) as [pages|e']; [|discriminate].
    now rewrite (IH _ Hl Hbad).
Qed.

(** The loop never asks for a file that is not on its list. *)
Lemma load_pdfs_loads (host : Host) (pdf_files : list string) (docs : list Doc)
    (p : string) :
  In p (loads (snd (load_pdfs host pdf_files docs))) -> In p pdf_files.
Proof.
  revert docs. induction pdf_files as [|q l IH]; intros docs; [simpl; tauto|].
  cbn [load_pdfs]. destruct (pdf_load host q) as [pages|e].
  - specialize (IH (docs ++ pages)).
    destruct (load_pdfs host l (docs ++ pages)) as [r log]. cbn [snd] in *.
    change (SeLoad q :: log) with ([SeLoad q] ++ log). rewrite loads_app.
    simpl. intros [<-|Hin]; [now left | right; now apply IH].
  - simpl. intros [<-|[]]. now left.
Qed.

Lemma load_pdfs_error (host : Host) (pdf_files : list string) (docs : list Doc)
    (err : StartupError) :
  fst (load_pdfs host pdf_files docs) = Aborted err ->
  exists e : Exn, err = LibraryError e.
Proof.
  revert docs. induction pdf_files as [|q l IH]; intros docs; [discriminate|].
  cbn [load_pdfs]. destruct (pdf_load host q) as [pages|e].
  - specialize (IH (docs ++ pages)).
    destruct (load_pdfs host l (docs ++ pages)) as [r log]. exact IH.
  - cbn [fst]. intros [= <-]. now exists e.
Qed.

(** The credential is there and not empty. *)
Definition has_key (host : Host) : bool :=
  match environ host !! "OPENAI_API_KEY" with
  | Some (String _ _) => true
  | _ => false
  end.

(** X11. The start-up checks its preconditions in a fixed order and stops
    at the first that fails, before the next is looked at: without a
    non-empty [OPENAI_API_KEY] it raises [EnvironmentError] and touches
    nothing; with the key but without the folder it raises
    [FileNotFoundError] and lists nothing; with both, it raises the
    [FileNotFoundError] for "No PDF files" without loading anything exactly
    when no listed name ends in ".pdf" (in lower case: the test is
    [endswith('.pdf')]). *)
Theorem startup_preconditions (host : Host) :
  (has_key host = false ->
   startup host = (Aborted (EnvironmentError no_key_msg), []))
  /\ (has_key host = true -> path_exists host pdf_folder = false ->
      startup host
      = (Aborted (FileNotFoundError no_folder_msg), [SeExists pdf_folder]))
  /\ (has_key host = true -> path_exists host pdf_folder = true ->
      forall names : list string,
        listdir host pdf_folder = Ret names ->
        ((forall name : string,
            In name names -> ~ exists stem : string, name = stem +:+ ".pdf")
         <-> startup host
             = (Aborted (FileNotFoundError no_pdf_msg),
                [SeExists pdf_folder; SeListdir pdf_folder]))).
Proof.
  unfold has_key, startup. split; [|split].
  - destruct (environ host !! "OPENAI_API_KEY") as [[|c key]|];
      [reflexivity | discriminate | reflexivity].
  - destruct (environ host !! "OPENAI_API_KEY") as [[|c key]|];
      [discriminate | | discriminate].
    intros _ ->. reflexivity.
  - destruct (environ host !! "OPENAI_API_KEY") as [[|c key]|];
      [discriminate | | discriminate].
    intros _ -> names ->. split.
    + intros Hnone.
      assert (Hfilter : List.filter (endswith ".pdf") names = []).
      { destruct (List.filter (endswith ".pdf") names) as [|name l] eqn:Hf;
          [reflexivity|].
        assert (Hin : In name (List.filter (endswith ".pdf") names))
          by (rewrite Hf; now left).
        apply filter_In in Hin as [Hin Hend].
        apply endswith_iff in Hend. now destruct (Hnone name Hin). }
      unfold pdf_files_of. now rewrite Hfilter.
    + intros Hrun name Hin Hstem. apply endswith_iff in Hstem.
      assert (Hin' : In (path_join host pdf_folder name) (pdf_files_of host names)).
      { unfold pdf_files_of. apply in_map. apply filter_In. now split. }
      destruct (pdf_files_of host names) as [|p l]; [destruct Hin'|].
      destruct (load_pdfs host (p :: l) []) as [[docs|err] log] eqn:Hload;
        [discriminate|].
      destruct (load_pdfs_error host (p :: l) [] err) as [e ->];
        [now rewrite Hload|].
      discriminate.
Qed.

Definition host_upper_case : Host :=
  {| environ := {[ "OPENAI_API_KEY" := "sk-test" ]};
     path_exists := fun _ => true;
     listdir := fun _ => Ret [ "ITR-GUIDE.PDF"; "notes.txt"; "pdf" ];
     path_join := fun folder name => folder +:+ "\" +:+ name;
     pdf_load := fun _ => Ret [ {| page_content := "page" |} ] |}.

Lemma startup_preconditions_witness :
  startup host_upper_case
  = (Aborted (FileNotFoundError no_pdf_msg),
     [SeExists pdf_folder; SeListdir pdf_folder]).
Proof.
  apply (proj2 (proj2 (startup_preconditions host_upper_case))
           eq_refl eq_refl [ "ITR-GUIDE.PDF"; "notes.txt"; "pdf" ] eq_refl).
  intros name [<-|[<-|[<-|[]]]] Hstem; apply endswith_iff in Hstem;
    discriminate.
Defined.

(** X12. The start-up never opens anything it was not meant to: every file
    it hands to the PDF loader is [os.path.join(pdf_folder, name)] for a
    name that [os.listdir(pdf_folder)] returned and that ends in ".pdf", and
    it does so only with the credential set and the folder present. *)
Theorem startup_loads_only_listed_pdfs (host : Host) (pdf_file : string) :
  In pdf_file (loads (snd (startup host))) ->
  has_key host = true
  /\ path_exists host pdf_folder = true
  /\ exists (names : list string) (name stem : string),
       listdir host pdf_folder = Ret names
       /\ In name names
       /\ name = stem +:+ ".pdf"
       /\ pdf_file = path_join host pdf_folder name.
Proof.
  unfold has_key, startup.
  destruct (environ host !! "OPENAI_API_KEY") as [[|c key]|];
    try (intros Hin; simpl in Hin; contradiction).
  destruct (path_exists host pdf_folder);
    [|intros Hin; simpl in Hin; contradiction].
  destruct (listdir host pdf_folder) as [names|e];
    [|intros Hin; simpl in Hin; contradiction].
  intros Hin.
  assert (Hlisted : In pdf_file (pdf_files_of host names)).
  { destruct (pdf_files_of host names) as [|p l] eqn:Hfiles;
      [simpl in Hin; contradiction|].
    pose proof (load_pdfs_loads host (p :: l) [] pdf_file) as Hloop.
    destruct (load_pdfs host (p :: l) []) as [[docs|err] log];
      cbn [snd] in *; apply Hloop; rewrite !loads_app in Hin;
      apply in_app_or in Hin as [Hin|Hin];
      try (simpl in Hin; contradiction); try exact Hin.
    apply in_app_or in Hin as [Hin|Hin]; [exact Hin|].
    simpl in Hin. contradiction. }
  unfold pdf_files_of in Hlisted.
  apply in_map_iff in Hlisted as (name & <- & Hname).
  apply filter_In in Hname as [Hname Hend].
  apply endswith_iff in Hend as [stem ->].
  repeat split. exists names, (stem +:+ ".pdf"), stem. repeat split. exact Hname.
Qed.

Definition host_two_pdfs : Host :=
  {| environ := {[ "OPENAI_API_KEY" := "sk-test" ]};
     path_exists := fun _ => true;
     listdir := fun _ => Ret [ "b.pdf"; "readme.md"; "a.pdf" ];
     path_join := fun folder name => folder +:+ "\" +:+ name;
     pdf_load := fun path =>
       if "b.pdf" in_str path
       then Ret [ {| page_content := "b1" |}; {| page_content := "b2" |} ]
       else Ret [ {| page_content := "a1" |} ] |}.

Lemma startup_loads_only_listed_pdfs_witness :
  exists (name stem : string),
    In name [ "b.pdf"; "readme.md"; "a.pdf" ]
    /\ name = stem +:+ ".pdf"
    /\ pdf_folder +:+ "\" +:+ "a.pdf" = path_join host_two_pdfs pdf_folder name.
Proof.
  destruct (startup_loads_only_listed_pdfs host_two_pdfs
              (pdf_folder +:+ "\" +:+ "a.pdf"))
    as (_ & _ & names & name & stem & Hnames & Hin & Hstem & Hpath).
  - vm_compute. right. left. reflexivity.
  - injection Hnames as <-. now exists name, stem.
Defined.

(** X13. When the preconditions hold and every PDF loads, the start-up
    succeeds with the pages of all the files, file after file in the order
    [os.listdir] gave them (not sorted), each file loaded exactly once, and
    it reports their number. *)
Theorem startup_loads_in_listing_order (host : Host) (names : list string) :
  has_key host = true ->
  path_exists host pdf_folder = true ->
  listdir host pdf_folder = Ret names ->
  pdf_files_of host names <> [] ->
  forallb (loads_fine host) (pdf_files_of host names) = true ->
  let docs := flat_map (pages_of host) (pdf_files_of host names) in
  startup host
  = (Started docs,
     [SeExists pdf_folder; SeListdir pdf_folder]
       ++ map SeLoad (pdf_files_of host names)
       ++ [SeLoaded (length docs) pdf_folder])
  /\ loads (snd (startup host)) = pdf_files_of host names.
Proof.
  intros Hkey Hex Hls Hne Hall docs. unfold has_key in Hkey.
  assert (Hrun : startup host
    = (Started docs,
       [SeExists pdf_folder; SeListdir pdf_folder]
         ++ map SeLoad (pdf_files_of host names)
         ++ [SeLoaded (length docs) pdf_folder])).
  { unfold startup.
    destruct (environ host !! "OPENAI_API_KEY") as [[|c key]|]; try discriminate.
    rewrite Hex, Hls.
    pose proof (load_pdfs_all host (pdf_files_of host names) [] Hall) as Hload.
    cbn [app] in Hload. fold docs in Hload.
    destruct (pdf_files_of host names) as [|p l]; [congruence|].
    now rewrite Hload. }
  split; [exact Hrun|].
  rewrite Hrun. cbn [snd]. rewrite !loads_app, loads_map_SeLoad.
  simpl. now rewrite app_nil_r.
Qed.

Lemma startup_loads_in_listing_order_witness :
  startup host_two_pdfs
  = (Started [ {| page_content := "b1" |}; {| page_content := "b2" |};
               {| page_content := "a1" |} ],
     [SeExists pdf_folder; SeListdir pdf_folder;
      SeLoad (pdf_folder +:+ "\" +:+ "b.pdf");
      SeLoad (pdf_folder +:+ "\" +:+ "a.pdf");
      SeLoaded 3 pdf_folder]).
Proof.
  refine (proj1 (startup_loads_in_listing_order host_two_pdfs
                   [ "b.pdf"; "readme.md"; "a.pdf" ]
                   eq_refl eq_refl eq_refl _ eq_refl)).
  discriminate.
Defined.

(** X14. The start-up fails fast on a PDF that cannot be loaded: when the
    files before it have loaded and its loader raises, the start-up ends
    with that exception, the files after it are never opened, and nothing
    of what was loaded is kept. *)
Theorem startup_stops_at_first_failure (host : Host) (names : list string)
    (done rest : list string) (bad : string) (e : Exn) :
  has_key host = true ->
  path_exists host pdf_folder = true ->
  listdir host pdf_folder = Ret names ->
  pdf_files_of host names = done ++ bad :: rest ->
  forallb (loads_fine host) done = true ->
  pdf_load host bad = Raise e ->
  startup host
  = (Aborted (LibraryError e),
     [SeExists pdf_folder; SeListdir pdf_folder] ++ map SeLoad (done ++ [bad]))
  /\ loads (snd (startup host)) = done ++ [bad].
Proof.
  unfold has_key. intros Hkey Hex Hls Hfiles Hdone Hbad.
  assert (Hrun : startup host
    = (Aborted (LibraryError e),
       [SeExists pdf_folder; SeListdir pdf_folder] ++ map SeLoad (done ++ [bad]))).
  { unfold startup.
    destruct (environ host !! "OPENAI_API_KEY") as [[|c key]|]; try discriminate.
    rewrite Hex, Hls.
    pose proof (load_pdfs_stops host done rest bad e [] Hdone Hbad) as Hload.
    rewrite <- Hfiles in Hload.
    destruct (pdf_files_of host names) as [|p l];
      [destruct done; discriminate|].
    now rewrite Hload. }
  split; [exact Hrun|].
  rewrite Hrun. cbn [snd]. rewrite loads_app, loads_map_SeLoad. reflexivity.
Qed.

Definition host_broken_pdf : Host :=
  {| environ := {[ "OPENAI_API_KEY" := "sk-test" ]};
     path_exists := fun _ => true;
     listdir := fun _ => Ret [ "a.pdf"; "broken.pdf"; "c.pdf" ];
     path_join := fun folder name => folder +:+ "\" +:+ name;
     pdf_load := fun path =>
       if "broken" in_str path
       then Raise (Exception "EOF marker not found")
       else Ret [ {| page_content := "page" |} ] |}.

Lemma startup_stops_at_first_failure_witness :
  startup host_broken_pdf
  = (Aborted (LibraryError (Exception "EOF marker not found")),
     [SeExists pdf_folder; SeListdir pdf_folder;
      SeLoad (pdf_folder +:+ "\" +:+ "a.pdf");
      SeLoad (pdf_folder +:+ "\" +:+ "broken.pdf")]).
Proof.
  exact (proj1 (startup_stops_at_first_failure host_broken_pdf
                  [ "a.pdf"; "broken.pdf"; "c.pdf" ]
                  [ pdf_folder +:+ "\" +:+ "a.pdf" ]
                  [ pdf_folder +:+ "\" +:+ "c.pdf" ]
                  (pdf_folder +:+ "\" +:+ "broken.pdf")
                  (Exception "EOF marker not found")
                  eq_refl eq_refl eq_refl eq_refl eq_refl eq_refl)).
Defined.
